(** * Risk engine of calculadora-cardiorrenal: services/riskCalculations.ts

    A shallow embedding of the four exported functions of the risk engine
    (calculateCVRisk, calculateRenalRisk, getCombinedResults,
    calculateOptimalRisk) and of the MedicalData / RiskResults types of
    types.ts.

    Numbers.  A TypeScript [number] is modelled as a mathematical real:
    [Math.log] is [ln], [Math.exp] is [exp], [Math.pow] with a positive base
    is [Rpower], [Math.min]/[Math.max] are [Rmin]/[Rmax].  Rounding, NaN and
    the infinities of IEEE doubles are outside the model; the theorems that
    depend on a logarithm being meaningful carry the positivity of its
    argument as a hypothesis.  Orders between outputs are stated
    non-strictly and products up to rounding, since in double arithmetic
    outputs saturate at the bounds of the clamp and at 0 and 100. *)

From Stdlib Require Import Reals Lra Psatz ZArith Bool.
From Stdlib Require Import String List Lia.
Import ListNotations.

Open Scope R_scope.

(** ** types.ts *)

Inductive Gender : Type := MALE | FEMALE.

Record MedicalData : Type := mkMedicalData {
  age : R;
  gender : Gender;
  height : R;
  weight : R;
  bmi : R;
  systolicBP : R;
  diastolicBP : R;
  totalCholesterol : R;
  hdlCholesterol : R;
  hasDiabetes : bool;
  isSmoker : bool;
  onHypertensionMeds : bool;
  onStatins : bool;
  eGFR : R;
  acr : R;
  useFullKfre : bool;
  phosphate : option R;
  bicarbonate : option R;
  calcium : option R;
  albumin : option R
}.

Inductive CombinedLevel : Type := low | moderate | high | very_high.

(** The object returned by calculateCVRisk. *)
Module CV.
Record t : Type := mk {
  fiveYear : R;
  tenYear : R;
  fifteenYear : R;
  total : R
}.
End CV.

(** The object returned by calculateRenalRisk. *)
Module Renal.
Record t : Type := mk {
  twoYear : R;
  fiveYear : R;
  tenYear : R
}.
End Renal.

(** RiskResults: cvTimeline, cv30y, renalTimeline, combinedLevel. *)
Module CvTimeline.
Record t : Type := mk {
  fiveYear : R;
  tenYear : R;
  fifteenYear : R
}.
End CvTimeline.

Module Cv30y.
Record t : Type := mk { total : R }.
End Cv30y.

Record RiskResults : Type := mkRiskResults {
  cvTimeline : CvTimeline.t;
  cv30y : Cv30y.t;
  renalTimeline : Renal.t;
  combinedLevel : CombinedLevel
}.

(** ** JavaScript operators on numbers *)

(** [x > y] as a boolean. *)
Definition gtb (x y : R) : bool := if Rgt_dec x y then true else false.

Infix ">?" := gtb (at level 70, no associativity) : R_scope.

(** [b ? 1 : 0]. *)
Definition indicator (b : bool) : R := if b then 1 else 0.

(** ** calculateCVRisk *)

(** [const evalAge = Math.min(Math.max(age, 30), 79)]. *)
Definition evalAge (data : MedicalData) : R := Rmin (Rmax (age data) 30) 79.

(** The [indivSum] assigned in the two branches of [gender === Gender.MALE]. *)
Definition indivSum (data : MedicalData) : R :=
  let lnAge := ln (evalAge data) in
  let lnTotalChol := ln (totalCholesterol data) in
  let lnHDL := ln (hdlCholesterol data) in
  let lnSBP := ln (systolicBP data) in
  let smoker := indicator (isSmoker data) in
  let diabetes := indicator (hasDiabetes data) in
  match gender data with
  | MALE =>
      (12.344 * lnAge) +
      (11.853 * lnTotalChol) +
      (-2.664 * lnAge * lnTotalChol) +
      (-7.990 * lnHDL) +
      (1.769 * lnAge * lnHDL) +
      (if onHypertensionMeds data then 1.797 * lnSBP else 1.764 * lnSBP) +
      (7.837 * smoker) +
      (-1.795 * lnAge * smoker) +
      (0.658 * diabetes)
  | FEMALE =>
      (-29.799 * lnAge) +
      (4.884 * lnAge * lnAge) +
      (13.540 * lnTotalChol) +
      (-3.114 * lnAge * lnTotalChol) +
      (-13.578 * lnHDL) +
      (3.149 * lnAge * lnHDL) +
      (if onHypertensionMeds data then 2.019 * lnSBP else 1.957 * lnSBP) +
      (7.574 * smoker) +
      (-1.665 * lnAge * smoker) +
      (0.661 * diabetes)
  end.

Definition meanSum (g : Gender) : R :=
  match g with MALE => 61.1816 | FEMALE => -29.182 end.

Definition s10 (g : Gender) : R :=
  match g with MALE => 0.9144 | FEMALE => 0.9665 end.

(** [const riskFactor = Math.exp(indivSum - meanSum)]. *)
Definition riskFactor (data : MedicalData) : R :=
  exp (indivSum data - meanSum (gender data)).

(** The value of [risk] in calculateRiskAtTime just before the final
    [Math.min(Math.max(risk * 100, 0.1), 100)]. *)
Definition riskBeforeClamp (data : MedicalData) (t : R) : R :=
  let st := Rpower (s10 (gender data)) (t / 10) in
  let risk := 1 - Rpower st (riskFactor data) in
  if onStatins data then risk * 0.75 else risk.

(** The closure [calculateRiskAtTime]; it captures [s10], [riskFactor] and
    [onStatins] of the enclosing call, here read off [data]. *)
Definition calculateRiskAtTime (data : MedicalData) (t : R) : R :=
  Rmin (Rmax (riskBeforeClamp data t * 100) 0.1) 100.

Definition calculateCVRisk (data : MedicalData) : CV.t :=
  {| CV.fiveYear := calculateRiskAtTime data 5;
     CV.tenYear := calculateRiskAtTime data 10;
     CV.fifteenYear := calculateRiskAtTime data 15;
     CV.total := calculateRiskAtTime data 10 |}.

(** ** calculateRenalRisk *)

Definition isMale (data : MedicalData) : R :=
  match gender data with MALE => 1 | FEMALE => 0 end.

Definition renalLp (data : MedicalData) : R :=
  let lnACR := ln (acr data) in
  -0.2201 * (age data / 10 - 7.036) +
  0.2467 * (isMale data - 0.5642) -
  0.5567 * (eGFR data / 5 - 7.222) +
  0.4510 * (lnACR - 5.137).

Definition renal_s2 : R := 0.9832.
Definition renal_s5 : R := 0.9365.
Definition renal_s10 : R := 0.8200.

Definition calculateRenalRisk (data : MedicalData) : Renal.t :=
  let lp := renalLp data in
  {| Renal.twoYear := (1 - Rpower renal_s2 (exp lp)) * 100;
     Renal.fiveYear := (1 - Rpower renal_s5 (exp lp)) * 100;
     Renal.tenYear := (1 - Rpower renal_s10 (exp lp)) * 100 |}.

(** ** getCombinedResults *)

(** The if / else-if chain that assigns [level], as a function of the two
    numbers it reads: [cvRes.tenYear] and [renalRes.fiveYear]. *)
Definition levelOf (cvTenYear renalFiveYear : R) : CombinedLevel :=
  if (cvTenYear >? 20) || (renalFiveYear >? 15) then very_high
  else if (cvTenYear >? 10) || (renalFiveYear >? 10) then high
  else if (cvTenYear >? 5) || (renalFiveYear >? 5) then moderate
  else low.

Definition getCombinedResults (data : MedicalData) : RiskResults :=
  let cvRes := calculateCVRisk data in
  let renalRes := calculateRenalRisk data in
  let level := levelOf (CV.tenYear cvRes) (Renal.fiveYear renalRes) in
  {| cvTimeline :=
       {| CvTimeline.fiveYear := CV.fiveYear cvRes;
          CvTimeline.tenYear := CV.tenYear cvRes;
          CvTimeline.fifteenYear := CV.fifteenYear cvRes |};
     cv30y := {| Cv30y.total := Rmin (CV.tenYear cvRes * 2.5) 100 |};
     renalTimeline :=
       {| Renal.twoYear := Renal.twoYear renalRes;
          Renal.fiveYear := Renal.fiveYear renalRes;
          Renal.tenYear := Renal.tenYear renalRes |};
     combinedLevel := level |}.

(** ** calculateOptimalRisk *)

(** The object literal [{...data, systolicBP: 115, ...}]. *)
Definition optimalData (data : MedicalData) : MedicalData :=
  {| age := age data;
     gender := gender data;
     height := height data;
     weight := weight data;
     bmi := bmi data;
     systolicBP := 115;
     diastolicBP := 75;
     totalCholesterol := 160;
     hdlCholesterol := 55;
     hasDiabetes := hasDiabetes data;
     isSmoker := false;
     onHypertensionMeds := false;
     onStatins := false;
     eGFR := eGFR data;
     acr := acr data;
     useFullKfre := useFullKfre data;
     phosphate := phosphate data;
     bicarbonate := bicarbonate data;
     calcium := calcium data;
     albumin := albumin data |}.

Definition calculateOptimalRisk (data : MedicalData) : CV.t :=
  calculateCVRisk (optimalData data).

(** The documented preconditions of calculateCVRisk: every argument of a
    logarithm is strictly positive. *)
Definition cvPre (data : MedicalData) : Prop :=
  0 < age data /\ 0 < totalCholesterol data /\
  0 < hdlCholesterol data /\ 0 < systolicBP data.

(** ** Records used to exercise the theorems *)

(** The scenario of the specification: a 50-year-old man, systolic pressure
    145 under treatment, total cholesterol 250, HDL 38. *)
Definition patientTreated : MedicalData :=
  {| age := 50; gender := MALE; height := 175; weight := 82; bmi := 26.8;
     systolicBP := 145; diastolicBP := 90;
     totalCholesterol := 250; hdlCholesterol := 38;
     hasDiabetes := false; isSmoker := false;
     onHypertensionMeds := true; onStatins := false;
     eGFR := 60; acr := 30; useFullKfre := false;
     phosphate := None; bicarbonate := None;
     calcium := None; albumin := None |}.

(** A healthy 30-year-old woman. *)
Definition patientYoung : MedicalData :=
  {| age := 30; gender := FEMALE; height := 165; weight := 58; bmi := 21.3;
     systolicBP := 105; diastolicBP := 65;
     totalCholesterol := 150; hdlCholesterol := 75;
     hasDiabetes := false; isSmoker := false;
     onHypertensionMeds := false; onStatins := false;
     eGFR := 100; acr := 10; useFullKfre := false;
     phosphate := None; bicarbonate := None;
     calcium := None; albumin := None |}.

(** [{...data, onStatins: b}]. *)
Definition withStatins (b : bool) (data : MedicalData) : MedicalData :=
  {| age := age data; gender := gender data; height := height data;
     weight := weight data; bmi := bmi data;
     systolicBP := systolicBP data; diastolicBP := diastolicBP data;
     totalCholesterol := totalCholesterol data;
     hdlCholesterol := hdlCholesterol data;
     hasDiabetes := hasDiabetes data; isSmoker := isSmoker data;
     onHypertensionMeds := onHypertensionMeds data; onStatins := b;
     eGFR := eGFR data; acr := acr data; useFullKfre := useFullKfre data;
     phosphate := phosphate data; bicarbonate := bicarbonate data;
     calcium := calcium data; albumin := albumin data |}.

(** A record that agrees with [patientTreated] on age, sex, diabetes, eGFR
    and ACR and differs from it in every other field. *)
Definition patientOther : MedicalData :=
  {| age := 50; gender := MALE; height := 181; weight := 95; bmi := 29;
     systolicBP := 120; diastolicBP := 80;
     totalCholesterol := 190; hdlCholesterol := 50;
     hasDiabetes := false; isSmoker := true;
     onHypertensionMeds := false; onStatins := true;
     eGFR := 60; acr := 30; useFullKfre := true;
     phosphate := Some 3.9; bicarbonate := Some 25.5;
     calcium := Some 9.4; albumin := Some 4.1 |}.

(** A 60-year-old man whose modifiable fields already sit at the optimal
    constants and who is on statin therapy. *)
Definition patientOnStatins : MedicalData :=
  {| age := 60; gender := MALE; height := 178; weight := 80; bmi := 25.2;
     systolicBP := 115; diastolicBP := 75;
     totalCholesterol := 160; hdlCholesterol := 55;
     hasDiabetes := false; isSmoker := false;
     onHypertensionMeds := false; onStatins := true;
     eGFR := 85; acr := 15; useFullKfre := false;
     phosphate := None; bicarbonate := None;
     calcium := None; albumin := None |}.

(** A 79-year-old woman, not on statins, whose total cholesterol (300) is
    above the optimal 160 and whose other modifiable fields are optimal. *)
Definition patientElderly : MedicalData :=
  {| age := 79; gender := FEMALE; height := 160; weight := 62; bmi := 24.2;
     systolicBP := 115; diastolicBP := 75;
     totalCholesterol := 300; hdlCholesterol := 55;
     hasDiabetes := false; isSmoker := false;
     onHypertensionMeds := false; onStatins := false;
     eGFR := 70; acr := 20; useFullKfre := false;
     phosphate := None; bicarbonate := None;
     calcium := None; albumin := None |}.

(** A woman of the given age with total cholesterol 200, HDL 50 and systolic
    pressure 120, untreated, non-smoker, without diabetes. *)
Definition femaleAtAge (a : R) : MedicalData :=
  {| age := a; gender := FEMALE; height := 165; weight := 60; bmi := 22;
     systolicBP := 120; diastolicBP := 80;
     totalCholesterol := 200; hdlCholesterol := 50;
     hasDiabetes := false; isSmoker := false;
     onHypertensionMeds := false; onStatins := false;
     eGFR := 90; acr := 10; useFullKfre := false;
     phosphate := None; bicarbonate := None;
     calcium := None; albumin := None |}.

(** ** Statin therapy at one horizon

    [risk] is the risk before the statin factor and the clamp, [off] and
    [on] the percentages returned without and with statins: neither is
    clamped, and [on] is 0.75 times [off] up to the rounding of the
    products. *)
Definition scaledByThreeQuarters (risk off on : R) : Prop :=
  off = risk * 100 /\
  on = risk * 0.75 * 100 /\
  Rabs (on - 0.75 * off) <= 1e-12 * off.

(** ** The linear predictor as the specification words it *)

(** One coefficient per term of the sex-stratified linear combination:
    ln(age), ln(total cholesterol), ln(HDL), ln(systolic BP) with a treated
    and an untreated coefficient, ln(age) x ln(total cholesterol),
    ln(age) x ln(HDL), smoking, ln(age) x smoking, diabetes.  [cLnAgeSq]
    weighs ln(age) squared, a term the specification does not list. *)
Record PceCoefficients : Type := mkPceCoefficients {
  cLnAge : R;
  cLnAgeSq : R;
  cLnTotalChol : R;
  cLnAgeLnTotalChol : R;
  cLnHDL : R;
  cLnAgeLnHDL : R;
  cLnSBPTreated : R;
  cLnSBPUntreated : R;
  cSmoker : R;
  cLnAgeSmoker : R;
  cDiabetes : R
}.

Definition pceCombination (c : PceCoefficients) (data : MedicalData) : R :=
  let lnAge := ln (evalAge data) in
  let lnTotalChol := ln (totalCholesterol data) in
  let lnHDL := ln (hdlCholesterol data) in
  let lnSBP := ln (systolicBP data) in
  cLnAge c * lnAge +
  cLnAgeSq c * (lnAge * lnAge) +
  cLnTotalChol c * lnTotalChol +
  cLnAgeLnTotalChol c * (lnAge * lnTotalChol) +
  cLnHDL c * lnHDL +
  cLnAgeLnHDL c * (lnAge * lnHDL) +
  (if onHypertensionMeds data then cLnSBPTreated c else cLnSBPUntreated c)
    * lnSBP +
  cSmoker c * indicator (isSmoker data) +
  cLnAgeSmoker c * (lnAge * indicator (isSmoker data)) +
  cDiabetes c * indicator (hasDiabetes data).

(** The coefficients written in the two branches of calculateCVRisk. *)
Definition maleCoefficients : PceCoefficients :=
  {| cLnAge := 12.344; cLnAgeSq := 0;
     cLnTotalChol := 11.853; cLnAgeLnTotalChol := -2.664;
     cLnHDL := -7.990; cLnAgeLnHDL := 1.769;
     cLnSBPTreated := 1.797; cLnSBPUntreated := 1.764;
     cSmoker := 7.837; cLnAgeSmoker := -1.795;
     cDiabetes := 0.658 |}.

Definition femaleCoefficients : PceCoefficients :=
  {| cLnAge := -29.799; cLnAgeSq := 4.884;
     cLnTotalChol := 13.540; cLnAgeLnTotalChol := -3.114;
     cLnHDL := -13.578; cLnAgeLnHDL := 3.149;
     cLnSBPTreated := 2.019; cLnSBPUntreated := 1.957;
     cSmoker := 7.574; cLnAgeSmoker := -1.665;
     cDiabetes := 0.661 |}.

Definition coefficientsOf (g : Gender) : PceCoefficients :=
  match g with MALE => maleCoefficients | FEMALE => femaleCoefficients end.

(** ** The optimal counterfactual as the specification words it *)

(** The modifiable fields are no better than the forced optimal constants:
    pressures and total cholesterol at or above them, HDL at or below; for
    the three booleans the optimum is [false], so either value is no
    better. *)
Definition worseThanOptimal (data : MedicalData) : Prop :=
  115 <= systolicBP data /\ 75 <= diastolicBP data /\
  160 <= totalCholesterol data /\ hdlCholesterol data <= 55.

(** The cardiovascular inputs equal the optimal constants. *)
Definition atOptimal (data : MedicalData) : Prop :=
  systolicBP data = 115 /\ totalCholesterol data = 160 /\
  hdlCholesterol data = 55 /\ isSmoker data = false /\
  onHypertensionMeds data = false.

(** The ages at which, in the code's equations, a higher total cholesterol,
    a lower HDL and smoking each raise the linear predictor: every age for
    a non-smoking man, up to 78 for a man who smokes, up to 74 for a
    woman. *)
Definition usualDirection (data : MedicalData) : Prop :=
  match gender data with
  | MALE => isSmoker data = false \/ age data <= 78
  | FEMALE => age data <= 74
  end.

(** The three numeric inputs the optimal record overwrites and that
    calculateCVRisk reads are no better than the optimal constants; the
    diastolic pressure, which calculateCVRisk never reads, is left free. *)
Definition noBetterThanOptimal (data : MedicalData) : Prop :=
  115 <= systolicBP data /\ 160 <= totalCholesterol data /\
  hdlCholesterol data <= 55.

(** Systolic pressure, total cholesterol and HDL are whole numbers, as the
    form stores them ([parseInt] of the input box). *)
Definition wholeNumberInputs (data : MedicalData) : Prop :=
  (exists n : Z, systolicBP data = IZR n) /\
  (exists n : Z, totalCholesterol data = IZR n) /\
  (exists n : Z, hdlCholesterol data = IZR n).

(** ** Certified lower bounds of the exponential

    [exp x >= (1 + x / 2^k) ^ (2^k)]; the power is computed by [k]
    squarings on fixed-point integers of scale [2^80], each rounded down. *)

Definition expScale : Z := (2 ^ 80)%Z.

Definition sqDown (a : Z) : Z := (a * a / expScale)%Z.

Fixpoint iterSq (k : nat) (a : Z) : Z :=
  match k with
  | O => a
  | S k' => iterSq k' (sqDown a)
  end.

Definition expBase (k : nat) (p q : Z) : Z :=
  (expScale * (q * 2 ^ Z.of_nat k + p) / (q * 2 ^ Z.of_nat k))%Z.

Definition expLower (k : nat) (p q : Z) : Z := iterSq k (expBase k p q).

(** Decides [cn / cd <= expLower k p q / expScale], a sufficient condition
    for [cn / cd <= exp (p / q)]. *)
Definition expGeb (k : nat) (cn cd p q : Z) : bool :=
  (0 <? q)%Z && (0 <? cd)%Z && (0 <=? q * 2 ^ Z.of_nat k + p)%Z &&
  (cn * expScale <=? cd * expLower k p q)%Z.

(** ** Order of the combined levels *)

(** The four levels from least to most severe, in the order in which the
    else-if chain of getCombinedResults gives way. *)
Definition severity (l : CombinedLevel) : nat :=
  match l with
  | low => 0
  | moderate => 1
  | high => 2
  | very_high => 3
  end.

(** ** App.tsx: editing the form

    [handleInputChange(field, value)] replaces the form data by
    [{...prev, [field]: value}].  A call is a field of MedicalData together
    with a value of the type of that field. *)

Inductive FieldUpdate : Type :=
  | SetAge (value : R)
  | SetGender (value : Gender)
  | SetHeight (value : R)
  | SetWeight (value : R)
  | SetBmi (value : R)
  | SetSystolicBP (value : R)
  | SetDiastolicBP (value : R)
  | SetTotalCholesterol (value : R)
  | SetHdlCholesterol (value : R)
  | SetHasDiabetes (value : bool)
  | SetIsSmoker (value : bool)
  | SetOnHypertensionMeds (value : bool)
  | SetOnStatins (value : bool)
  | SetEGFR (value : R)
  | SetAcr (value : R)
  | SetUseFullKfre (value : bool)
  | SetPhosphate (value : option R)
  | SetBicarbonate (value : option R)
  | SetCalcium (value : option R)
  | SetAlbumin (value : option R).

Definition handleInputChange (prev : MedicalData) (u : FieldUpdate)
  : MedicalData :=
  match u with
  | SetAge value =>
      {| age := value; gender := gender prev; height := height prev;
         weight := weight prev; bmi := bmi prev;
         systolicBP := systolicBP prev; diastolicBP := diastolicBP prev;
         totalCholesterol := totalCholesterol prev;
         hdlCholesterol := hdlCholesterol prev;
         hasDiabetes := hasDiabetes prev; isSmoker := isSmoker prev;
         onHypertensionMeds := onHypertensionMeds prev;
         onStatins := onStatins prev; eGFR := eGFR prev; acr := acr prev;
         useFullKfre := useFullKfre prev; phosphate := phosphate prev;
         bicarbonate := bicarbonate prev; calcium := calcium prev;
         albumin := albumin prev |}
  | SetGender value =>
      {| age := age prev; gender := value; height := height prev;
         weight := weight prev; bmi := bmi prev;
         systolicBP := systolicBP prev; diastolicBP := diastolicBP prev;
         totalCholesterol := totalCholesterol prev;
         hdlCholesterol := hdlCholesterol prev;
         hasDiabetes := hasDiabetes prev; isSmoker := isSmoker prev;
         onHypertensionMeds := onHypertensionMeds prev;
         onStatins := onStatins prev; eGFR := eGFR prev; acr := acr prev;
         useFullKfre := useFullKfre prev; phosphate := phosphate prev;
         bicarbonate := bicarbonate prev; calcium := calcium prev;
         albumin := albumin prev |}
  | SetHeight value =>
      {| age := age prev; gender := gender prev; height := value;
         weight := weight prev; bmi := bmi prev;
         systolicBP := systolicBP prev; diastolicBP := diastolicBP prev;
         totalCholesterol := totalCholesterol prev;
         hdlCholesterol := hdlCholesterol prev;
         hasDiabetes := hasDiabetes prev; isSmoker := isSmoker prev;
         onHypertensionMeds := onHypertensionMeds prev;
         onStatins := onStatins prev; eGFR := eGFR prev; acr := acr prev;
         useFullKfre := useFullKfre prev; phosphate := phosphate prev;
         bicarbonate := bicarbonate prev; calcium := calcium prev;
         albumin := albumin prev |}
  | SetWeight value =>
      {| age := age prev; gender := gender prev; height := height prev;
         weight := value; bmi := bmi prev; systolicBP := systolicBP prev;
         diastolicBP := diastolicBP prev;
         totalCholesterol := totalCholesterol prev;
         hdlCholesterol := hdlCholesterol prev;
         hasDiabetes := hasDiabetes prev; isSmoker := isSmoker prev;
         onHypertensionMeds := onHypertensionMeds prev;
         onStatins := onStatins prev; eGFR := eGFR prev; acr := acr prev;
         useFullKfre := useFullKfre prev; phosphate := phosphate prev;
         bicarbonate := bicarbonate prev; calcium := calcium prev;
         albumin := albumin prev |}
  | SetBmi value =>
      {| age := age prev; gender := gender prev; height := height prev;
         weight := weight prev; bmi := value; systolicBP := systolicBP prev;
         diastolicBP := diastolicBP prev;
         totalCholesterol := totalCholesterol prev;
         hdlCholesterol := hdlCholesterol prev;
         hasDiabetes := hasDiabetes prev; isSmoker := isSmoker prev;
         onHypertensionMeds := onHypertensionMeds prev;
         onStatins := onStatins prev; eGFR := eGFR prev; acr := acr prev;
         useFullKfre := useFullKfre prev; phosphate := phosphate prev;
         bicarbonate := bicarbonate prev; calcium := calcium prev;
         albumin := albumin prev |}
  | SetSystolicBP value =>
      {| age := age prev; gender := gender prev; height := height prev;
         weight := weight prev; bmi := bmi prev; systolicBP := value;
         diastolicBP := diastolicBP prev;
         totalCholesterol := totalCholesterol prev;
         hdlCholesterol := hdlCholesterol prev;
         hasDiabetes := hasDiabetes prev; isSmoker := isSmoker prev;
         onHypertensionMeds := onHypertensionMeds prev;
         onStatins := onStatins prev; eGFR := eGFR prev; acr := acr prev;
         useFullKfre := useFullKfre prev; phosphate := phosphate prev;
         bicarbonate := bicarbonate prev; calcium := calcium prev;
         albumin := albumin prev |}
  | SetDiastolicBP value =>
      {| age := age prev; gender := gender prev; height := height prev;
         weight := weight prev; bmi := bmi prev;
         systolicBP := systolicBP prev; diastolicBP := value;
         totalCholesterol := totalCholesterol prev;
         hdlCholesterol := hdlCholesterol prev;
         hasDiabetes := hasDiabetes prev; isSmoker := isSmoker prev;
         onHypertensionMeds := onHypertensionMeds prev;
         onStatins := onStatins prev; eGFR := eGFR prev; acr := acr prev;
         useFullKfre := useFullKfre prev; phosphate := phosphate prev;
         bicarbonate := bicarbonate prev; calcium := calcium prev;
         albumin := albumin prev |}
  | SetTotalCholesterol value =>
      {| age := age prev; gender := gender prev; height := height prev;
         weight := weight prev; bmi := bmi prev;
         systolicBP := systolicBP prev; diastolicBP := diastolicBP prev;
         totalCholesterol := value; hdlCholesterol := hdlCholesterol prev;
         hasDiabetes := hasDiabetes prev; isSmoker := isSmoker prev;
         onHypertensionMeds := onHypertensionMeds prev;
         onStatins := onStatins prev; eGFR := eGFR prev; acr := acr prev;
         useFullKfre := useFullKfre prev; phosphate := phosphate prev;
         bicarbonate := bicarbonate prev; calcium := calcium prev;
         albumin := albumin prev |}
  | SetHdlCholesterol value =>
      {| age := age prev; gender := gender prev; height := height prev;
         weight := weight prev; bmi := bmi prev;
         systolicBP := systolicBP prev; diastolicBP := diastolicBP prev;
         totalCholesterol := totalCholesterol prev; hdlCholesterol := value;
         hasDiabetes := hasDiabetes prev; isSmoker := isSmoker prev;
         onHypertensionMeds := onHypertensionMeds prev;
         onStatins := onStatins prev; eGFR := eGFR prev; acr := acr prev;
         useFullKfre := useFullKfre prev; phosphate := phosphate prev;
         bicarbonate := bicarbonate prev; calcium := calcium prev;
         albumin := albumin prev |}
  | SetHasDiabetes value =>
      {| age := age prev; gender := gender prev; height := height prev;
         weight := weight prev; bmi := bmi prev;
         systolicBP := systolicBP prev; diastolicBP := diastolicBP prev;
         totalCholesterol := totalCholesterol prev;
         hdlCholesterol := hdlCholesterol prev; hasDiabetes := value;
         isSmoker := isSmoker prev;
         onHypertensionMeds := onHypertensionMeds prev;
         onStatins := onStatins prev; eGFR := eGFR prev; acr := acr prev;
         useFullKfre := useFullKfre prev; phosphate := phosphate prev;
         bicarbonate := bicarbonate prev; calcium := calcium prev;
         albumin := albumin prev |}
  | SetIsSmoker value =>
      {| age := age prev; gender := gender prev; height := height prev;
         weight := weight prev; bmi := bmi prev;
         systolicBP := systolicBP prev; diastolicBP := diastolicBP prev;
         totalCholesterol := totalCholesterol prev;
         hdlCholesterol := hdlCholesterol prev;
         hasDiabetes := hasDiabetes prev; isSmoker := value;
         onHypertensionMeds := onHypertensionMeds prev;
         onStatins := onStatins prev; eGFR := eGFR prev; acr := acr prev;
         useFullKfre := useFullKfre prev; phosphate := phosphate prev;
         bicarbonate := bicarbonate prev; calcium := calcium prev;
         albumin := albumin prev |}
  | SetOnHypertensionMeds value =>
      {| age := age prev; gender := gender prev; height := height prev;
         weight := weight prev; bmi := bmi prev;
         systolicBP := systolicBP prev; diastolicBP := diastolicBP prev;
         totalCholesterol := totalCholesterol prev;
         hdlCholesterol := hdlCholesterol prev;
         hasDiabetes := hasDiabetes prev; isSmoker := isSmoker prev;
         onHypertensionMeds := value; onStatins := onStatins prev;
         eGFR := eGFR prev; acr := acr prev; useFullKfre := useFullKfre prev;
         phosphate := phosphate prev; bicarbonate := bicarbonate prev;
         calcium := calcium prev; albumin := albumin prev |}
  | SetOnStatins value =>
      {| age := age prev; gender := gender prev; height := height prev;
         weight := weight prev; bmi := bmi prev;
         systolicBP := systolicBP prev; diastolicBP := diastolicBP prev;
         totalCholesterol := totalCholesterol prev;
         hdlCholesterol := hdlCholesterol prev;
         hasDiabetes := hasDiabetes prev; isSmoker := isSmoker prev;
         onHypertensionMeds := onHypertensionMeds prev; onStatins := value;
         eGFR := eGFR prev; acr := acr prev; useFullKfre := useFullKfre prev;
         phosphate := phosphate prev; bicarbonate := bicarbonate prev;
         calcium := calcium prev; albumin := albumin prev |}
  | SetEGFR value =>
      {| age := age prev; gender := gender prev; height := height prev;
         weight := weight prev; bmi := bmi prev;
         systolicBP := systolicBP prev; diastolicBP := diastolicBP prev;
         totalCholesterol := totalCholesterol prev;
         hdlCholesterol := hdlCholesterol prev;
         hasDiabetes := hasDiabetes prev; isSmoker := isSmoker prev;
         onHypertensionMeds := onHypertensionMeds prev;
         onStatins := onStatins prev; eGFR := value; acr := acr prev;
         useFullKfre := useFullKfre prev; phosphate := phosphate prev;
         bicarbonate := bicarbonate prev; calcium := calcium prev;
         albumin := albumin prev |}
  | SetAcr value =>
      {| age := age prev; gender := gender prev; height := height prev;
         weight := weight prev; bmi := bmi prev;
         systolicBP := systolicBP prev; diastolicBP := diastolicBP prev;
         totalCholesterol := totalCholesterol prev;
         hdlCholesterol := hdlCholesterol prev;
         hasDiabetes := hasDiabetes prev; isSmoker := isSmoker prev;
         onHypertensionMeds := onHypertensionMeds prev;
         onStatins := onStatins prev; eGFR := eGFR prev; acr := value;
         useFullKfre := useFullKfre prev; phosphate := phosphate prev;
         bicarbonate := bicarbonate prev; calcium := calcium prev;
         albumin := albumin prev |}
  | SetUseFullKfre value =>
      {| age := age prev; gender := gender prev; height := height prev;
         weight := weight prev; bmi := bmi prev;
         systolicBP := systolicBP prev; diastolicBP := diastolicBP prev;
         totalCholesterol := totalCholesterol prev;
         hdlCholesterol := hdlCholesterol prev;
         hasDiabetes := hasDiabetes prev; isSmoker := isSmoker prev;
         onHypertensionMeds := onHypertensionMeds prev;
         onStatins := onStatins prev; eGFR := eGFR prev; acr := acr prev;
         useFullKfre := value; phosphate := phosphate prev;
         bicarbonate := bicarbonate prev; calcium := calcium prev;
         albumin := albumin prev |}
  | SetPhosphate value =>
      {| age := age prev; gender := gender prev; height := height prev;
         weight := weight prev; bmi := bmi prev;
         systolicBP := systolicBP prev; diastolicBP := diastolicBP prev;
         totalCholesterol := totalCholesterol prev;
         hdlCholesterol := hdlCholesterol prev;
         hasDiabetes := hasDiabetes prev; isSmoker := isSmoker prev;
         onHypertensionMeds := onHypertensionMeds prev;
         onStatins := onStatins prev; eGFR := eGFR prev; acr := acr prev;
         useFullKfre := useFullKfre prev; phosphate := value;
         bicarbonate := bicarbonate prev; calcium := calcium prev;
         albumin := albumin prev |}
  | SetBicarbonate value =>
      {| age := age prev; gender := gender prev; height := height prev;
         weight := weight prev; bmi := bmi prev;
         systolicBP := systolicBP prev; diastolicBP := diastolicBP prev;
         totalCholesterol := totalCholesterol prev;
         hdlCholesterol := hdlCholesterol prev;
         hasDiabetes := hasDiabetes prev; isSmoker := isSmoker prev;
         onHypertensionMeds := onHypertensionMeds prev;
         onStatins := onStatins prev; eGFR := eGFR prev; acr := acr prev;
         useFullKfre := useFullKfre prev; phosphate := phosphate prev;
         bicarbonate := value; calcium := calcium prev;
         albumin := albumin prev |}
  | SetCalcium value =>
      {| age := age prev; gender := gender prev; height := height prev;
         weight := weight prev; bmi := bmi prev;
         systolicBP := systolicBP prev; diastolicBP := diastolicBP prev;
         totalCholesterol := totalCholesterol prev;
         hdlCholesterol := hdlCholesterol prev;
         hasDiabetes := hasDiabetes prev; isSmoker := isSmoker prev;
         onHypertensionMeds := onHypertensionMeds prev;
         onStatins := onStatins prev; eGFR := eGFR prev; acr := acr prev;
         useFullKfre := useFullKfre prev; phosphate := phosphate prev;
         bicarbonate := bicarbonate prev; calcium := value;
         albumin := albumin prev |}
  | SetAlbumin value =>
      {| age := age prev; gender := gender prev; height := height prev;
         weight := weight prev; bmi := bmi prev;
         systolicBP := systolicBP prev; diastolicBP := diastolicBP prev;
         totalCholesterol := totalCholesterol prev;
         hdlCholesterol := hdlCholesterol prev;
         hasDiabetes := hasDiabetes prev; isSmoker := isSmoker prev;
         onHypertensionMeds := onHypertensionMeds prev;
         onStatins := onStatins prev; eGFR := eGFR prev; acr := acr prev;
         useFullKfre := useFullKfre prev; phosphate := phosphate prev;
         bicarbonate := bicarbonate prev; calcium := calcium prev;
         albumin := value |}
  end.

(** The edits of fields that neither calculateCVRisk nor calculateRenalRisk
    destructures. *)
Definition ignoredByEngine (u : FieldUpdate) : bool :=
  match u with
  | SetHeight _ | SetWeight _ | SetBmi _ | SetDiastolicBP _
  | SetUseFullKfre _ | SetPhosphate _ | SetBicarbonate _
  | SetCalcium _ | SetAlbumin _ => true
  | _ => false
  end.

(** The edits of the two fields that only calculateRenalRisk reads. *)
Definition renalOnly (u : FieldUpdate) : bool :=
  match u with
  | SetEGFR _ | SetAcr _ => true
  | _ => false
  end.

(** The edits of the fields that only calculateCVRisk reads. *)
Definition cardiovascularOnly (u : FieldUpdate) : bool :=
  match u with
  | SetSystolicBP _ | SetTotalCholesterol _ | SetHdlCholesterol _
  | SetHasDiabetes _ | SetIsSmoker _ | SetOnHypertensionMeds _
  | SetOnStatins _ => true
  | _ => false
  end.

(** Horizon-wise comparison of two results of calculateCVRisk. *)
Definition cvLe (r1 r2 : CV.t) : Prop :=
  CV.fiveYear r1 <= CV.fiveYear r2 /\
  CV.tenYear r1 <= CV.tenYear r2 /\
  CV.fifteenYear r1 <= CV.fifteenYear r2.

(** ** App.tsx: staging and labels of the report *)

(** [x < y] as a boolean. *)
Definition ltb (x y : R) : bool := if Rlt_dec x y then true else false.

Infix "<?" := ltb (at level 70, no associativity) : R_scope.

(** The object computed by the [kdigoStage] memo. *)
Record KdigoStage : Type := mkKdigoStage {
  stage : string;
  desc : string;
  acrStage : string
}.

Definition kdigoStage (formData : MedicalData) : KdigoStage :=
  let stageDesc :=
    if eGFR formData <? 15 then ("G5", "Falência Renal")%string
    else if eGFR formData <? 30 then ("G4", "Severamente Reduzida")%string
    else if eGFR formData <? 45 then ("G3b", "Moderada a Severa")%string
    else if eGFR formData <? 60 then ("G3a", "Leve a Moderada")%string
    else if eGFR formData <? 90 then ("G2", "Levemente Reduzida")%string
    else ("G1", "Normal ou Elevada")%string in
  let acrStage :=
    if acr formData >? 300 then "A3"%string
    else if acr formData >? 30 then "A2"%string
    else "A1"%string in
  {| stage := fst stageDesc; desc := snd stageDesc; acrStage := acrStage |}.

(** The second albuminuria label of the report line
    [{kdigoStage.acrStage} – {formData.acr < 30 ? 'A1' : ...}]. *)
Definition reportAcrLabel (formData : MedicalData) : string :=
  if acr formData <? 30 then "A1"%string
  else if acr formData <? 300 then "A2"%string
  else "A3"%string.


(** The conditions under which the report lists the items [TFG reduzida]
    and [Albuminúria]. *)
Definition showsReducedGfr (formData : MedicalData) : bool :=
  eGFR formData <? 60.

Definition showsAlbuminuria (formData : MedicalData) : bool :=
  acr formData >? 30.

(** *** The ACR box left empty

    The form stores [parseFloat(e.target.value)] in [acr]; for an emptied
    box this is NaN, on which every comparison is false.  The two
    albuminuria labels and the listing condition, on the value of the box
    including that case. *)

Inductive AcrInput : Type :=
  | AcrNumber (x : R)
  | AcrNaN.

(** [a > y] and [a < y] for [a] a number or NaN. *)
Definition acrGt (a : AcrInput) (y : R) : bool :=
  match a with AcrNumber x => x >? y | AcrNaN => false end.

Definition acrLt (a : AcrInput) (y : R) : bool :=
  match a with AcrNumber x => x <? y | AcrNaN => false end.

(** [kdigoStage.acrStage]. *)
Definition acrStageOf (a : AcrInput) : string :=
  if acrGt a 300 then "A3"%string
  else if acrGt a 30 then "A2"%string
  else "A1"%string.

(** [formData.acr < 30 ? 'A1' : formData.acr < 300 ? 'A2' : 'A3']. *)
Definition reportAcrLabelOf (a : AcrInput) : string :=
  if acrLt a 30 then "A1"%string
  else if acrLt a 300 then "A2"%string
  else "A3"%string.

(** [formData.acr > 30 && ...]. *)
Definition showsAlbuminuriaOf (a : AcrInput) : bool := acrGt a 30.

(** ** App.tsx: rounded figures

    [x.toFixed(1)] read back as a number: the multiple [n / 10] nearest to
    [x], the larger [n] when two are equally near, computed on the absolute
    value with the sign restored. *)

Definition nearestTenths (y : R) : Z := Int_part (y * 10 + / 2).

Definition toFixed1 (x : R) : R :=
  if x <? 0 then - (IZR (nearestTenths (- x)) / 10)
  else IZR (nearestTenths x) / 10.

(** An entry of [impactData]. *)
Module Impact.
Record t : Type := mk {
  name : string;
  val : R;
  fill : string
}.
End Impact.

Definition impactData (formData : MedicalData) : list Impact.t :=
  filter (fun d => Impact.val d >? 0)
    [ {| Impact.name := "PA";
         Impact.val := toFixed1 ((systolicBP formData - 120) * 1.5);
         Impact.fill := "#ef4444" |};
      {| Impact.name := "Lipídios";
         Impact.val := toFixed1 ((totalCholesterol formData - 150) * 0.8);
         Impact.fill := "#f59e0b" |};
      {| Impact.name := "UACR";
         Impact.val := toFixed1 (ln (acr formData + 1) * 5);
         Impact.fill := "#10b981" |} ].

(** An entry of [compareData]. *)
Module Compare.
Record t : Type := mk {
  name : string;
  Risco : R;
  fill : string
}.
End Compare.

Definition compareData (results : RiskResults) (optimal : CV.t)
  : list Compare.t :=
  [ {| Compare.name := "Atual";
       Compare.Risco := toFixed1 (CvTimeline.tenYear (cvTimeline results));
       Compare.fill := "#ef4444" |};
    {| Compare.name := "Meta";
       Compare.Risco := toFixed1 (CV.tenYear optimal);
       Compare.fill := "#10b981" |} ].

(** A bar of the given name is drawn in the chart of aggravating
    factors. *)
Definition hasBar (n : string) (bars : list Impact.t) : Prop :=
  exists b : Impact.t, In b bars /\ Impact.name b = n.

(** ** App.tsx: navigation

    The component keeps [view] and [step] in state.  Each button has one
    handler; a button that is not rendered in the current view, or is
    rendered [disabled], cannot be clicked. *)

Module Nav.

Inductive View : Type := home | calc | results.

Record State : Type := mkState {
  view : View;
  step : Z
}.

(** [useState('home')] and [useState(1)]. *)
Definition initial : State := {| view := home; step := 1 |}.

Inductive Button : Type :=
  | Logo            (* the brand in the navigation bar: setView('home') *)
  | NovoExame       (* setView('calc'); setStep(1) *)
  | Iniciar         (* home view: setView('calc') *)
  | Voltar          (* calc view, disabled when step === 1: s - 1 *)
  | Proximo         (* calc view, rendered when step < 3: s + 1 *)
  | GerarAnalises   (* calc view, rendered otherwise: setView('results') *)
  | EditarDados.    (* results view: setView('calc') *)

Definition viewIs (v : View) (s : State) : bool :=
  match v, view s with
  | home, home | calc, calc | results, results => true
  | _, _ => false
  end.

(** Whether the button is on screen and enabled. *)
Definition clickable (s : State) (b : Button) : bool :=
  match b with
  | Logo | NovoExame => true
  | Iniciar => viewIs home s
  | Voltar => viewIs calc s && negb (step s =? 1)%Z
  | Proximo => viewIs calc s && (step s <? 3)%Z
  | GerarAnalises => viewIs calc s && negb (step s <? 3)%Z
  | EditarDados => viewIs results s
  end.

(** The handler of the button. *)
Definition handler (s : State) (b : Button) : State :=
  match b with
  | Logo => {| view := home; step := step s |}
  | NovoExame => {| view := calc; step := 1 |}
  | Iniciar => {| view := calc; step := step s |}
  | Voltar => {| view := view s; step := (step s - 1)%Z |}
  | Proximo => {| view := view s; step := (step s + 1)%Z |}
  | GerarAnalises => {| view := results; step := step s |}
  | EditarDados => {| view := calc; step := step s |}
  end.

Definition click (s : State) (b : Button) : State :=
  if clickable s b then handler s b else s.

(** The state after a sequence of clicks from the initial state. *)
Definition run (clicks : list Button) : State := fold_left click clicks initial.

End Nav.

(** What the navigation keeps true: the step is one of the three steps of
    the form, and the results are on screen only with the step at 3. *)
Definition navInvariant (s : Nav.State) : Prop :=
  (1 <= Nav.step s <= 3)%Z /\ (Nav.view s = Nav.results -> Nav.step s = 3%Z).

(** ** App.tsx: provider and API keys kept in localStorage *)

Module Keys.

(** localStorage as [getItem] sees it: the string stored under a key, or
    null. *)
Definition Storage : Type := string -> option string.

Definition getItem (st : Storage) (k : string) : option string := st k.

Definition setItem (st : Storage) (k v : string) : Storage :=
  fun k' => if (k' =? k)%string then Some v else st k'.

(** [v || d] for [v] a string or null: null and the empty string are
    falsy. *)
Definition orDefault (v : option string) (d : string) : string :=
  match v with
  | Some s => if (s =? "")%string then d else s
  | None => d
  end.

(** The [provider] and [apiKeys] states; [apiKeys] is an object, read here
    by property name. *)
Record State : Type := mkState {
  provider : string;
  apiKeys : string -> option string
}.

(** The initial values given to [useState]. *)
Definition initialState (st : Storage) : State :=
  {| provider := orDefault (getItem st "ai_provider") "openai";
     apiKeys := fun p =>
       if (p =? "openai")%string
       then Some (orDefault (getItem st "openai_api_key") "")
       else if (p =? "groq")%string
       then Some (orDefault (getItem st "groq_api_key") "")
       else if (p =? "gemini")%string
       then Some (orDefault (getItem st "gemini_api_key") "")
       else None |}.

(** [saveApiKey(key, prov)]: the state update and the write to
    localStorage under [`${prov}_api_key`]. *)
Definition saveApiKey (key prov : string) (w : State * Storage)
  : State * Storage :=
  ({| provider := provider (fst w);
      apiKeys := fun p =>
        if (p =? prov)%string then Some key else apiKeys (fst w) p |},
   setItem (snd w) (prov ++ "_api_key") key).

(** [changeProvider(prov)]. *)
Definition changeProvider (prov : string) (w : State * Storage)
  : State * Storage :=
  ({| provider := prov; apiKeys := apiKeys (fst w) |},
   setItem (snd w) "ai_provider" prov).

Inductive Action : Type :=
  | SaveApiKey (key prov : string)
  | ChangeProvider (prov : string).

Definition act (w : State * Storage) (a : Action) : State * Storage :=
  match a with
  | SaveApiKey key prov => saveApiKey key prov w
  | ChangeProvider prov => changeProvider prov w
  end.

(** The settings dialog offers the providers of a constant list; none is
    the empty string. *)
Definition offered (a : Action) : Prop :=
  match a with
  | SaveApiKey _ _ => True
  | ChangeProvider prov => prov <> ""%string
  end.

(** The state in memory is the one a reload of the page would build from
    localStorage: same provider, same key for each of the three
    providers. *)
Definition inSync (w : State * Storage) : Prop :=
  provider (fst w) = provider (initialState (snd w)) /\
  forall p : string,
    p = "openai"%string \/ p = "groq"%string \/ p = "gemini"%string ->
    apiKeys (fst w) p = apiKeys (initialState (snd w)) p.

End Keys.

(** ** App.tsx: the sanitised narrative

    [text.replace(/\*\*/g, '').replace(/\*/g, '•')] on a string given as
    its list of UTF-16 code units: 42 is the asterisk, 8226 the bullet. *)

Definition asterisk : N := 42%N.
Definition bullet : N := 8226%N.

(** [replace(/\*\*/g, '')]: the matches are found from left to right and do
    not overlap. *)
Fixpoint removeDoubleAsterisks (text : list N) : list N :=
  match text with
  | [] => []
  | c :: rest =>
      match rest with
      | c' :: rest' =>
          if (c =? asterisk)%N && (c' =? asterisk)%N
          then removeDoubleAsterisks rest'
          else c :: removeDoubleAsterisks rest
      | [] => [c]
      end
  end.

(** [replace(/\*/g, '•')]. *)
Definition asterisksToBullets (text : list N) : list N :=
  map (fun c => if (c =? asterisk)%N then bullet else c) text.

Definition sanitizeInsight (text : list N) : list N :=
  asterisksToBullets (removeDoubleAsterisks text).

(** * Properties *)

(** ** The final clamp [Math.min(Math.max(x, 0.1), 100)] *)

Lemma clamp_range (x : R) : 0.1 <= Rmin (Rmax x 0.1) 100 <= 100.
Proof.
  unfold Rmin, Rmax.
  destruct (Rle_dec x 0.1); destruct (Rle_dec _ 100); lra.
Qed.

Lemma clamp_mono (x y : R) :
  x <= y -> Rmin (Rmax x 0.1) 100 <= Rmin (Rmax y 0.1) 100.
Proof.
  intro H. unfold Rmin, Rmax.
  destruct (Rle_dec x 0.1); destruct (Rle_dec y 0.1);
    repeat destruct (Rle_dec _ 100); lra.
Qed.

Lemma clamp_id (x : R) : 0.1 <= x <= 100 -> Rmin (Rmax x 0.1) 100 = x.
Proof.
  intro H. unfold Rmin, Rmax.
  destruct (Rle_dec x 0.1); destruct (Rle_dec _ 100); lra.
Qed.

Lemma clamp_floor (x : R) : x <= 0.1 -> Rmin (Rmax x 0.1) 100 = 0.1.
Proof.
  intro H. unfold Rmin, Rmax.
  destruct (Rle_dec x 0.1); destruct (Rle_dec _ 100); lra.
Qed.

Lemma gtb_true (x y : R) : (x >? y) = true <-> x > y.
Proof. unfold gtb. destruct (Rgt_dec x y); split; intro; lra || congruence. Qed.

Lemma gtb_false (x y : R) : (x >? y) = false <-> x <= y.
Proof. unfold gtb. destruct (Rgt_dec x y); split; intro; lra || congruence. Qed.

(** ** Stratification *)

Lemma levelOf_very_high (cv rn : R) :
  levelOf cv rn = very_high <-> (cv > 20 \/ rn > 15).
Proof.
  unfold levelOf.
  destruct (cv >? 20) eqn:E1; destruct (rn >? 15) eqn:E2;
  destruct (cv >? 10) eqn:E3; destruct (rn >? 10) eqn:E4;
  destruct (cv >? 5) eqn:E5; destruct (rn >? 5) eqn:E6; simpl;
  rewrite ?gtb_true, ?gtb_false in *;
  (split; [ intro H; try discriminate; lra | intro H; try reflexivity; lra ]).
Qed.

Ltac level_cases cv rn :=
  unfold levelOf;
  destruct (cv >? 20) eqn:?E1; destruct (rn >? 15) eqn:?E2;
  destruct (cv >? 10) eqn:?E3; destruct (rn >? 10) eqn:?E4;
  destruct (cv >? 5) eqn:?E5; destruct (rn >? 5) eqn:?E6; simpl;
  rewrite ?gtb_true, ?gtb_false in *;
  (split; [ intro; try discriminate; lra | intro; try reflexivity; lra ]).

Lemma levelOf_high (cv rn : R) :
  levelOf cv rn = high <->
  (~ (cv > 20 \/ rn > 15) /\ (cv > 10 \/ rn > 10)).
Proof. level_cases cv rn. Qed.

Lemma levelOf_moderate (cv rn : R) :
  levelOf cv rn = moderate <->
  (~ (cv > 20 \/ rn > 15) /\ ~ (cv > 10 \/ rn > 10) /\ (cv > 5 \/ rn > 5)).
Proof. level_cases cv rn. Qed.

Lemma levelOf_low (cv rn : R) :
  levelOf cv rn = low <->
  (~ (cv > 20 \/ rn > 15) /\ ~ (cv > 10 \/ rn > 10) /\ ~ (cv > 5 \/ rn > 5)).
Proof. level_cases cv rn. Qed.

(** C1: getCombinedResults derives combinedLevel from the ten-year
    cardiovascular risk and the five-year renal risk through four mutually
    exclusive tiers tried in order, each with strict comparisons: very_high
    when cv > 20 or renal > 15; otherwise high when cv > 10 or renal > 10;
    otherwise moderate when cv > 5 or renal > 5; otherwise low.  At the
    boundary a ten-year cardiovascular risk of exactly 20 is high (the renal
    figure not exceeding 15) and 20.0001 is very_high. *)
Theorem C1_combined_level_tiers :
  (forall data : MedicalData,
     let cv := CV.tenYear (calculateCVRisk data) in
     let rn := Renal.fiveYear (calculateRenalRisk data) in
     let level := combinedLevel (getCombinedResults data) in
     level = levelOf cv rn /\
     (level = very_high <-> (cv > 20 \/ rn > 15)) /\
     (level = high <->
        (~ (cv > 20 \/ rn > 15) /\ (cv > 10 \/ rn > 10))) /\
     (level = moderate <->
        (~ (cv > 20 \/ rn > 15) /\ ~ (cv > 10 \/ rn > 10) /\
         (cv > 5 \/ rn > 5))) /\
     (level = low <->
        (~ (cv > 20 \/ rn > 15) /\ ~ (cv > 10 \/ rn > 10) /\
         ~ (cv > 5 \/ rn > 5)))) /\
  (forall rn : R, rn <= 15 -> levelOf 20 rn = high) /\
  (forall rn : R, levelOf 20.0001 rn = very_high).
Proof.
  split; [ | split ].
  - intros data cv rn level. subst level. cbn [getCombinedResults combinedLevel].
    fold cv rn.
    split; [ reflexivity | ].
    split; [ apply levelOf_very_high | ].
    split; [ apply levelOf_high | ].
    split; [ apply levelOf_moderate | apply levelOf_low ].
  - intros rn Hrn. apply levelOf_high. lra.
  - intros rn. apply levelOf_very_high. lra.
Qed.

Lemma C1_combined_level_tiers_witness :
  levelOf 20 15 = high /\ levelOf 20.0001 0 = very_high.
Proof.
  destruct C1_combined_level_tiers as [_ [Hhigh Hvery]].
  split; [ apply (Hhigh 15); lra | apply (Hvery 0) ].
Defined.

(** ** Cardiovascular outputs *)

(** C2: under the positivity preconditions (age, total cholesterol, HDL
    cholesterol and systolic pressure strictly positive) each of the
    fiveYear, tenYear and fifteenYear outputs of calculateCVRisk lies in
    the closed interval [0.1, 100]; the function is total, it has no error
    result. *)
Theorem C2_cv_outputs_in_range (data : MedicalData) :
  cvPre data ->
  let r := calculateCVRisk data in
  0.1 <= CV.fiveYear r <= 100 /\
  0.1 <= CV.tenYear r <= 100 /\
  0.1 <= CV.fifteenYear r <= 100.
Proof.
  intros _ r. subst r. cbn [calculateCVRisk CV.fiveYear CV.tenYear CV.fifteenYear].
  unfold calculateRiskAtTime.
  repeat split; apply clamp_range.
Qed.

Lemma C2_cv_outputs_in_range_witness :
  let r := calculateCVRisk patientTreated in
  0.1 <= CV.fiveYear r <= 100 /\
  0.1 <= CV.tenYear r <= 100 /\
  0.1 <= CV.fifteenYear r <= 100.
Proof.
  apply (C2_cv_outputs_in_range patientTreated).
  unfold cvPre, patientTreated; simpl. lra.
Defined.

(** ** Powers of a survival probability *)

Lemma ln_neg_of_lt_1 (s : R) : 0 < s < 1 -> ln s < 0.
Proof.
  intros [H0 H1]. rewrite <- ln_1. apply ln_increasing; assumption.
Qed.

Lemma Rpower_survival (s e : R) :
  0 < s < 1 -> 0 < e -> 0 < Rpower s e < 1.
Proof.
  intros Hs He. unfold Rpower. split.
  - apply exp_pos.
  - rewrite <- exp_0. apply exp_increasing.
    pose proof (ln_neg_of_lt_1 s Hs). nra.
Qed.

(** A larger exponent gives a smaller power of a survival probability. *)
Lemma Rpower_survival_anti (s e1 e2 : R) :
  0 < s < 1 -> e1 < e2 -> Rpower s e2 < Rpower s e1.
Proof.
  intros Hs He. unfold Rpower. apply exp_increasing.
  pose proof (ln_neg_of_lt_1 s Hs). nra.
Qed.

Lemma Rpower_survival_inj (s e1 e2 : R) :
  0 < s < 1 -> Rpower s e1 = Rpower s e2 -> e1 = e2.
Proof.
  intros Hs H.
  destruct (Rtotal_order e1 e2) as [Hlt | [Heq | Hgt]]; [ | exact Heq | ].
  - pose proof (Rpower_survival_anti s e1 e2 Hs Hlt). lra.
  - pose proof (Rpower_survival_anti s e2 e1 Hs Hgt). lra.
Qed.

(** ** Renal outputs *)

Lemma renal_constants :
  0 < renal_s2 < 1 /\ 0 < renal_s5 < 1 /\ 0 < renal_s10 < 1.
Proof. unfold renal_s2, renal_s5, renal_s10. lra. Qed.

(** C7: for a record with strictly positive ACR each of the twoYear,
    fiveYear and tenYear outputs of calculateRenalRisk equals
    (1 - S ^ exp(lp)) * 100, with S the baseline survival constant of the
    horizon (0.9832, 0.9365, 0.8200, each strictly between 0 and 1) and lp
    the KFRE linear predictor; hence each output lies in [0, 100] although
    no clamping is applied. *)
Theorem C7_renal_outputs_bounded (data : MedicalData) :
  0 < acr data ->
  let r := calculateRenalRisk data in
  let lp := -0.2201 * (age data / 10 - 7.036)
            + 0.2467 * (isMale data - 0.5642)
            - 0.5567 * (eGFR data / 5 - 7.222)
            + 0.4510 * (ln (acr data) - 5.137) in
  (0 < renal_s2 < 1 /\ 0 < renal_s5 < 1 /\ 0 < renal_s10 < 1) /\
  (Renal.twoYear r = (1 - Rpower renal_s2 (exp lp)) * 100 /\
   Renal.fiveYear r = (1 - Rpower renal_s5 (exp lp)) * 100 /\
   Renal.tenYear r = (1 - Rpower renal_s10 (exp lp)) * 100) /\
  (0 <= Renal.twoYear r <= 100 /\
   0 <= Renal.fiveYear r <= 100 /\
   0 <= Renal.tenYear r <= 100).
Proof.
  intros _ r lp.
  pose proof renal_constants as [H2 [H5 H10]].
  split; [ repeat split; lra | ].
  split; [ repeat split; reflexivity | ].
  subst r. cbn [calculateRenalRisk Renal.twoYear Renal.fiveYear Renal.tenYear].
  pose proof (Rpower_survival renal_s2 (exp (renalLp data)) H2 (exp_pos _)).
  pose proof (Rpower_survival renal_s5 (exp (renalLp data)) H5 (exp_pos _)).
  pose proof (Rpower_survival renal_s10 (exp (renalLp data)) H10 (exp_pos _)).
  repeat split; lra.
Qed.

Lemma C7_renal_outputs_bounded_witness :
  let r := calculateRenalRisk patientTreated in
  0 <= Renal.twoYear r <= 100 /\
  0 <= Renal.fiveYear r <= 100 /\
  0 <= Renal.tenYear r <= 100.
Proof.
  assert (H : 0 < acr patientTreated) by (simpl; lra).
  exact (proj2 (proj2 (C7_renal_outputs_bounded patientTreated H))).
Defined.

(** ** Long-horizon extrapolation *)

(** C8: the cv30y.total returned by getCombinedResults is the ten-year
    cardiovascular risk multiplied by 2.5 and capped at 100: it is
    2.5 * tenYear while tenYear <= 40 and 100 above. *)
Theorem C8_cv30y_scaled_and_capped (data : MedicalData) :
  let ten := CV.tenYear (calculateCVRisk data) in
  let total := Cv30y.total (cv30y (getCombinedResults data)) in
  total = Rmin (2.5 * ten) 100 /\
  (ten <= 40 -> total = 2.5 * ten) /\
  (40 <= ten -> total = 100).
Proof.
  intros ten total. subst total.
  cbn [getCombinedResults cv30y Cv30y.total]. fold ten.
  replace (ten * 2.5) with (2.5 * ten) by ring.
  split; [ reflexivity | ].
  unfold Rmin. destruct (Rle_dec (2.5 * ten) 100); split; intro; lra.
Qed.

Lemma C8_cv30y_scaled_and_capped_witness :
  let ten := CV.tenYear (calculateCVRisk patientTreated) in
  Cv30y.total (cv30y (getCombinedResults patientTreated)) = Rmin (2.5 * ten) 100.
Proof.
  exact (proj1 (C8_cv30y_scaled_and_capped patientTreated)).
Defined.

(** ** Which fields the results depend on *)

(** C9: the result of calculateOptimalRisk is determined by the age, gender
    and hasDiabetes fields alone: two records that agree on these three
    fields get the same fiveYear, tenYear and fifteenYear values, whatever
    their blood pressure, cholesterol, smoking, medication, statin, renal
    and anthropometric fields. *)
Theorem C9_optimal_depends_on_age_gender_diabetes (d1 d2 : MedicalData) :
  age d1 = age d2 ->
  gender d1 = gender d2 ->
  hasDiabetes d1 = hasDiabetes d2 ->
  CV.fiveYear (calculateOptimalRisk d1) = CV.fiveYear (calculateOptimalRisk d2) /\
  CV.tenYear (calculateOptimalRisk d1) = CV.tenYear (calculateOptimalRisk d2) /\
  CV.fifteenYear (calculateOptimalRisk d1)
    = CV.fifteenYear (calculateOptimalRisk d2).
Proof.
  intros Hage Hgender Hdiab.
  assert (H : forall t,
    calculateRiskAtTime (optimalData d1) t = calculateRiskAtTime (optimalData d2) t).
  { intro t.
    unfold calculateRiskAtTime, riskBeforeClamp, riskFactor, indivSum, evalAge.
    cbn [optimalData age gender systolicBP totalCholesterol hdlCholesterol
         hasDiabetes isSmoker onHypertensionMeds onStatins].
    rewrite Hage, Hgender, Hdiab. reflexivity. }
  unfold calculateOptimalRisk, calculateCVRisk.
  cbn [CV.fiveYear CV.tenYear CV.fifteenYear].
  rewrite !H. repeat split.
Qed.

Lemma C9_optimal_depends_on_age_gender_diabetes_witness :
  CV.fiveYear (calculateOptimalRisk patientTreated)
    = CV.fiveYear (calculateOptimalRisk patientOther) /\
  CV.tenYear (calculateOptimalRisk patientTreated)
    = CV.tenYear (calculateOptimalRisk patientOther) /\
  CV.fifteenYear (calculateOptimalRisk patientTreated)
    = CV.fifteenYear (calculateOptimalRisk patientOther).
Proof.
  apply (C9_optimal_depends_on_age_gender_diabetes patientTreated patientOther);
    reflexivity.
Defined.

(** C10: the result of calculateRenalRisk is determined by the age, gender,
    eGFR and acr fields alone: two records that agree on these four fields
    get the same twoYear, fiveYear and tenYear values; the useFullKfre flag
    and the optional phosphate, bicarbonate, calcium and albumin fields are
    never read. *)
Theorem C10_renal_depends_on_age_gender_egfr_acr (d1 d2 : MedicalData) :
  age d1 = age d2 ->
  gender d1 = gender d2 ->
  eGFR d1 = eGFR d2 ->
  acr d1 = acr d2 ->
  Renal.twoYear (calculateRenalRisk d1) = Renal.twoYear (calculateRenalRisk d2) /\
  Renal.fiveYear (calculateRenalRisk d1) = Renal.fiveYear (calculateRenalRisk d2) /\
  Renal.tenYear (calculateRenalRisk d1) = Renal.tenYear (calculateRenalRisk d2).
Proof.
  intros Hage Hgender Hegfr Hacr.
  assert (H : renalLp d1 = renalLp d2).
  { unfold renalLp, isMale. rewrite Hage, Hgender, Hegfr, Hacr. reflexivity. }
  unfold calculateRenalRisk.
  cbn [Renal.twoYear Renal.fiveYear Renal.tenYear].
  rewrite H. repeat split.
Qed.

Lemma C10_renal_depends_on_age_gender_egfr_acr_witness :
  useFullKfre patientTreated <> useFullKfre patientOther /\
  phosphate patientTreated <> phosphate patientOther /\
  Renal.twoYear (calculateRenalRisk patientTreated)
    = Renal.twoYear (calculateRenalRisk patientOther) /\
  Renal.fiveYear (calculateRenalRisk patientTreated)
    = Renal.fiveYear (calculateRenalRisk patientOther) /\
  Renal.tenYear (calculateRenalRisk patientTreated)
    = Renal.tenYear (calculateRenalRisk patientOther).
Proof.
  split; [ discriminate | split; [ discriminate | ] ].
  apply (C10_renal_depends_on_age_gender_egfr_acr patientTreated patientOther);
    reflexivity.
Defined.

(** ** Soundness of the exponential bounds *)

Lemma expScale_pos : 0 < IZR expScale.
Proof. apply IZR_lt. reflexivity. Qed.

Lemma sqDown_nonneg a : (0 <= sqDown a)%Z.
Proof.
  unfold sqDown. apply Z.div_pos; [ nia | reflexivity ].
Qed.

Lemma sqDown_sound a y :
  (0 <= a)%Z -> IZR a / IZR expScale <= y ->
  IZR (sqDown a) / IZR expScale <= y * y.
Proof.
  intros Ha Hy.
  pose proof expScale_pos as Hs.
  assert (Hdiv : (expScale * sqDown a <= a * a)%Z).
  { unfold sqDown. apply Z.mul_div_le. reflexivity. }
  apply IZR_le in Hdiv. rewrite !mult_IZR in Hdiv.
  assert (H0 : 0 <= IZR a) by (apply IZR_le; exact Ha).
  assert (H1 : 0 <= IZR a / IZR expScale).
  { apply Rmult_le_pos; [ exact H0 | left; apply Rinv_0_lt_compat; exact Hs ]. }
  assert (H2 : IZR (sqDown a) / IZR expScale
               <= (IZR a / IZR expScale) * (IZR a / IZR expScale)).
  { apply Rmult_le_reg_r with (IZR expScale * IZR expScale); [ nra | ].
    field_simplify; [ | lra | lra ]. nra. }
  nra.
Qed.

Lemma iterSq_sound k : forall a y,
  (0 <= a)%Z -> IZR a / IZR expScale <= y ->
  IZR (iterSq k a) / IZR expScale <= y ^ (2 ^ k).
Proof.
  induction k as [ | k IH ]; intros a y Ha Hy; simpl.
  - lra.
  - replace (y ^ (2 ^ k + (2 ^ k + 0))) with ((y * y) ^ (2 ^ k)).
    + apply IH; [ apply sqDown_nonneg | apply sqDown_sound; assumption ].
    + rewrite Nat.add_0_r, pow_add, Rpow_mult_distr. reflexivity.
Qed.

Lemma exp_pow2 k : forall y, exp y ^ (2 ^ k) = exp (2 ^ k * y).
Proof.
  induction k as [ | k IH ]; intro y; simpl.
  - replace (1 * y) with y by lra. lra.
  - rewrite Nat.add_0_r, pow_add, IH, <- exp_plus. f_equal. lra.
Qed.

Lemma expBase_sound k p q :
  (0 < q)%Z -> (0 <= q * 2 ^ Z.of_nat k + p)%Z ->
  (0 <= expBase k p q)%Z /\
  IZR (expBase k p q) / IZR expScale <= 1 + IZR p / IZR q / 2 ^ k.
Proof.
  intros Hq Hn.
  assert (Hk : (0 < 2 ^ Z.of_nat k)%Z) by (apply Z.pow_pos_nonneg; lia).
  assert (Hd : (0 < q * 2 ^ Z.of_nat k)%Z) by nia.
  split.
  - unfold expBase. apply Z.div_pos; [ | exact Hd ].
    apply Z.mul_nonneg_nonneg; [ discriminate | exact Hn ].
  - pose proof expScale_pos as Hs.
    assert (Hdiv : (q * 2 ^ Z.of_nat k * expBase k p q
                    <= expScale * (q * 2 ^ Z.of_nat k + p))%Z).
    { unfold expBase. apply Z.mul_div_le. exact Hd. }
    apply IZR_le in Hdiv.
    rewrite !mult_IZR, plus_IZR, mult_IZR in Hdiv.
    assert (E : IZR (2 ^ Z.of_nat k) = 2 ^ k).
    { rewrite <- pow_IZR. reflexivity. }
    rewrite E in Hdiv.
    assert (Hq' : 0 < IZR q) by (apply IZR_lt; exact Hq).
    assert (H2 : 0 < 2 ^ k) by (apply pow_lt; lra).
    apply Rmult_le_reg_r with (IZR expScale * (IZR q * 2 ^ k)).
    + apply Rmult_lt_0_compat; [ exact Hs | apply Rmult_lt_0_compat; assumption ].
    + field_simplify; [ | lra | lra ]. nra.
Qed.

Lemma expLower_sound k p q :
  (0 < q)%Z -> (0 <= q * 2 ^ Z.of_nat k + p)%Z ->
  IZR (expLower k p q) / IZR expScale <= exp (IZR p / IZR q).
Proof.
  intros Hq Hn.
  destruct (expBase_sound k p q Hq Hn) as [H0 H1].
  set (x := IZR p / IZR q) in *.
  assert (H2 : 0 < 2 ^ k) by (apply pow_lt; lra).
  replace (exp x) with (exp (x / 2 ^ k) ^ (2 ^ k)).
  - apply iterSq_sound; [ exact H0 | ].
    eapply Rle_trans; [ exact H1 | apply exp_ineq1_le ].
  - rewrite exp_pow2. f_equal. field. lra.
Qed.

(** [c <= exp x] from a computation on integers. *)
Lemma exp_ge k cn cd p q (c x : R) :
  c = IZR cn / IZR cd -> x = IZR p / IZR q ->
  expGeb k cn cd p q = true -> c <= exp x.
Proof.
  intros -> -> H. unfold expGeb in H.
  apply andb_prop in H. destruct H as [H Hc].
  apply andb_prop in H. destruct H as [H Hn].
  apply andb_prop in H. destruct H as [Hq Hd].
  apply Z.ltb_lt in Hq. apply Z.ltb_lt in Hd.
  apply Z.leb_le in Hn. apply Z.leb_le in Hc.
  pose proof (expLower_sound k p q Hq Hn) as HL.
  pose proof expScale_pos as Hs.
  assert (Hd' : 0 < IZR cd) by (apply IZR_lt; exact Hd).
  apply IZR_le in Hc. rewrite !mult_IZR in Hc.
  eapply Rle_trans; [ | exact HL ].
  apply Rmult_le_reg_r with (IZR cd * IZR expScale).
  - apply Rmult_lt_0_compat; assumption.
  - field_simplify; [ | lra | lra ]. nra.
Qed.

Ltac exp_lower_bound cn cd p q :=
  apply (exp_ge 30 cn cd p q); [ lra | lra | vm_compute; reflexivity ].

(** [lo <= ln c <= hi] from two lower bounds of the exponential. *)
Lemma ln_between (c lo hi : R) :
  0 < c -> / c <= exp (- lo) -> c <= exp hi -> lo <= ln c <= hi.
Proof.
  intros Hc Hlo Hhi. split.
  - rewrite <- (ln_exp lo).
    destruct (Rle_lt_dec (exp lo) c) as [Hle | Hlt].
    + destruct Hle as [Hlt | Heq].
      * left. apply ln_increasing; [ apply exp_pos | exact Hlt ].
      * rewrite Heq. lra.
    + exfalso. rewrite exp_Ropp in Hlo.
      assert (/ exp lo < / c).
      { apply Rinv_lt_contravar; [ | exact Hlt ].
        apply Rmult_lt_0_compat; [ exact Hc | apply exp_pos ]. }
      lra.
  - rewrite <- (ln_exp hi).
    destruct Hhi as [Hlt | Heq].
    + left. apply ln_increasing; assumption.
    + rewrite Heq. lra.
Qed.

Ltac ln_bounds c lo hi den :=
  let nlo := eval compute in (Z.opp lo) in
  apply ln_between;
  [ lra
  | exp_lower_bound 1%Z c nlo den
  | exp_lower_bound c 1%Z hi den ].

Lemma ln_30 : 3.4011 <= ln 30 <= 3.4012.
Proof. ln_bounds 30%Z 34011%Z 34012%Z 10000%Z. Qed.

(** ** The linear predictor *)

Lemma evalAge_range (data : MedicalData) : 30 <= evalAge data <= 79.
Proof.
  unfold evalAge, Rmin, Rmax.
  destruct (Rle_dec (age data) 30); destruct (Rle_dec _ 79); lra.
Qed.

Lemma evalAge_inside (data : MedicalData) :
  30 <= age data <= 79 -> evalAge data = age data.
Proof.
  intro H. unfold evalAge, Rmin, Rmax.
  destruct (Rle_dec (age data) 30); destruct (Rle_dec _ 79); lra.
Qed.

Lemma evalAge_below (data : MedicalData) : age data <= 30 -> evalAge data = 30.
Proof.
  intro H. unfold evalAge, Rmin, Rmax.
  destruct (Rle_dec (age data) 30); destruct (Rle_dec _ 79); lra.
Qed.

Lemma evalAge_above (data : MedicalData) : 79 <= age data -> evalAge data = 79.
Proof.
  intro H. unfold evalAge, Rmin, Rmax.
  destruct (Rle_dec (age data) 30); destruct (Rle_dec _ 79); lra.
Qed.

Lemma indivSum_combination (data : MedicalData) :
  indivSum data = pceCombination (coefficientsOf (gender data)) data.
Proof.
  unfold indivSum, pceCombination, coefficientsOf.
  destruct (gender data); destruct (onHypertensionMeds data);
    cbn [maleCoefficients femaleCoefficients cLnAge cLnAgeSq cLnTotalChol
         cLnAgeLnTotalChol cLnHDL cLnAgeLnHDL cLnSBPTreated cLnSBPUntreated
         cSmoker cLnAgeSmoker cDiabetes];
    ring.
Qed.

(** On [femaleAtAge a] the code's predictor is quadratic in ln(age), while a
    combination without the squared term is affine in it. *)
Lemma femaleAtAge_predictors (a : R) (c : PceCoefficients) :
  30 <= a <= 79 ->
  cvPre (femaleAtAge a) /\
  indivSum (femaleAtAge a)
    = 4.884 * (ln a * ln a)
      + (-29.799 - 3.114 * ln 200 + 3.149 * ln 50) * ln a
      + (13.540 * ln 200 - 13.578 * ln 50 + 1.957 * ln 120) /\
  (cLnAgeSq c = 0 ->
   pceCombination c (femaleAtAge a)
    = (cLnAge c + cLnAgeLnTotalChol c * ln 200 + cLnAgeLnHDL c * ln 50) * ln a
      + (cLnTotalChol c * ln 200 + cLnHDL c * ln 50
         + cLnSBPUntreated c * ln 120)).
Proof.
  intros Ha.
  assert (E : evalAge (femaleAtAge a) = a) by (apply evalAge_inside; simpl; lra).
  split; [ unfold cvPre; simpl; lra | ].
  unfold indivSum, pceCombination. rewrite E. simpl.
  split; [ lra | intros Hc; rewrite Hc; lra ].
Qed.

(** A quadratic with a non-zero leading coefficient does not agree with an
    affine function at three distinct points. *)
Lemma quadratic_three_points (k x y z p q p' q' : R) :
  k <> 0 -> x < y -> y < z ->
  k * (x * x) + p * x + q = p' * x + q' ->
  k * (y * y) + p * y + q = p' * y + q' ->
  k * (z * z) + p * z + q = p' * z + q' ->
  False.
Proof.
  intros Hk Hxy Hyz Ex Ey Ez.
  assert (A1 : (y - x) * (k * (x + y) + p - p') = 0) by nra.
  assert (A2 : (z - y) * (k * (y + z) + p - p') = 0) by nra.
  assert (B1 : k * (x + y) + p - p' = 0).
  { destruct (Rmult_integral _ _ A1); [ lra | assumption ]. }
  assert (B2 : k * (y + z) + p - p' = 0).
  { destruct (Rmult_integral _ _ A2); [ lra | assumption ]. }
  assert (C : k * (z - x) = 0) by lra.
  destruct (Rmult_integral _ _ C); lra.
Qed.

(** C5 as stated fails for women: no coefficient vector over the nine
    listed terms alone (that is, with no weight on ln(age) squared)
    reproduces the code's female linear predictor, not even on the three
    records [femaleAtAge 40], [femaleAtAge 50] and [femaleAtAge 60]. *)
Lemma C5_listed_terms_do_not_suffice_for_women :
  ~ (exists c : PceCoefficients,
       cLnAgeSq c = 0 /\
       forall a : R, a = 40 \/ a = 50 \/ a = 60 ->
         indivSum (femaleAtAge a) = pceCombination c (femaleAtAge a)).
Proof.
  intros [c [Hsq H]].
  assert (R40 : 30 <= 40 <= 79) by lra.
  assert (R50 : 30 <= 50 <= 79) by lra.
  assert (R60 : 30 <= 60 <= 79) by lra.
  destruct (femaleAtAge_predictors 40 c R40) as [_ [I40 S40]].
  destruct (femaleAtAge_predictors 50 c R50) as [_ [I50 S50]].
  destruct (femaleAtAge_predictors 60 c R60) as [_ [I60 S60]].
  pose proof (H 40 (or_introl eq_refl)) as E40.
  pose proof (H 50 (or_intror (or_introl eq_refl))) as E50.
  pose proof (H 60 (or_intror (or_intror eq_refl))) as E60.
  rewrite I40, (S40 Hsq) in E40.
  rewrite I50, (S50 Hsq) in E50.
  rewrite I60, (S60 Hsq) in E60.
  assert (L1 : ln 40 < ln 50) by (apply ln_increasing; lra).
  assert (L2 : ln 50 < ln 60) by (apply ln_increasing; lra).
  apply (quadratic_three_points 4.884 (ln 40) (ln 50) (ln 60)
           _ _ _ _ ltac:(lra) L1 L2 E40 E50 E60).
Qed.

(** C5 (amended): for every record the linear predictor of calculateCVRisk
    is the combination, with the fixed coefficients of the record's sex, of
    ln(age), ln(total cholesterol), ln(HDL), ln(systolic BP) (the treated or
    untreated coefficient chosen by onHypertensionMeds), ln(age) x ln(total
    cholesterol), ln(age) x ln(HDL), the smoking indicator, ln(age) x smoking
    and the diabetes indicator, and, for women only, of ln(age) squared
    with coefficient 4.884 (the male vector has no weight on that term);
    the age under every logarithm is the age clamped to [30, 79]. *)
Theorem C5_linear_predictor_terms (data : MedicalData) :
  indivSum data = pceCombination (coefficientsOf (gender data)) data /\
  cLnAgeSq (coefficientsOf MALE) = 0 /\
  cLnAgeSq (coefficientsOf FEMALE) = 4.884 /\
  coefficientsOf MALE <> coefficientsOf FEMALE /\
  30 <= evalAge data <= 79 /\
  (30 <= age data <= 79 -> evalAge data = age data) /\
  (age data <= 30 -> evalAge data = 30) /\
  (79 <= age data -> evalAge data = 79).
Proof.
  split; [ apply indivSum_combination | ].
  split; [ reflexivity | ].
  split; [ reflexivity | ].
  split.
  { intro H. apply (f_equal cLnAgeSq) in H. simpl in H. lra. }
  split; [ apply evalAge_range | ].
  split; [ apply evalAge_inside | ].
  split; [ apply evalAge_below | apply evalAge_above ].
Qed.

Lemma C5_linear_predictor_terms_witness :
  indivSum patientYoung = pceCombination femaleCoefficients patientYoung /\
  evalAge patientYoung = 30.
Proof.
  pose proof (C5_linear_predictor_terms patientYoung) as [H [_ [_ [_ [_ [Hin _]]]]]].
  split; [ exact H | ].
  rewrite Hin; simpl; [ reflexivity | lra ].
Defined.

(** ** The risk at a horizon *)

Lemma s10_range (g : Gender) : 0 < s10 g < 1.
Proof. destruct g; unfold s10; lra. Qed.

Lemma riskFactor_pos (data : MedicalData) : 0 < riskFactor data.
Proof. apply exp_pos. Qed.

(** The survival term [Math.pow(Math.pow(s10, t / 10), riskFactor)]. *)
Lemma survival_term (data : MedicalData) (t : R) :
  Rpower (Rpower (s10 (gender data)) (t / 10)) (riskFactor data)
  = Rpower (s10 (gender data)) (t / 10 * riskFactor data).
Proof. apply Rpower_mult. Qed.

Lemma riskBeforeClamp_eq (data : MedicalData) (t : R) :
  riskBeforeClamp data t
  = (1 - Rpower (s10 (gender data)) (t / 10 * riskFactor data))
    * (if onStatins data then 0.75 else 1).
Proof.
  unfold riskBeforeClamp. rewrite survival_term.
  destruct (onStatins data); lra.
Qed.

Lemma riskBeforeClamp_increasing (data : MedicalData) (t1 t2 : R) :
  t1 < t2 -> riskBeforeClamp data t1 < riskBeforeClamp data t2.
Proof.
  intro Ht. rewrite !riskBeforeClamp_eq.
  pose proof (riskFactor_pos data) as Hrf.
  assert (He : t1 / 10 * riskFactor data < t2 / 10 * riskFactor data) by nra.
  pose proof (Rpower_survival_anti _ _ _ (s10_range (gender data)) He).
  destruct (onStatins data); lra.
Qed.

Lemma riskBeforeClamp_lt_1 (data : MedicalData) (t : R) :
  riskBeforeClamp data t < 1.
Proof.
  rewrite riskBeforeClamp_eq.
  assert (H : 0 < Rpower (s10 (gender data)) (t / 10 * riskFactor data))
    by apply exp_pos.
  destruct (onStatins data).
  - destruct (Rle_lt_dec 0 (1 - Rpower (s10 (gender data))
                                   (t / 10 * riskFactor data))); nra.
  - lra.
Qed.

(** In exact arithmetic the cap at 100 is never the binding one: the clamp
    acts as a floor.  (In double arithmetic [1 - Math.pow(st, riskFactor)]
    can round to 1, and the output is then exactly 100.) *)
Lemma calculateRiskAtTime_floor (data : MedicalData) (t : R) :
  calculateRiskAtTime data t = Rmax (riskBeforeClamp data t * 100) 0.1.
Proof.
  unfold calculateRiskAtTime.
  pose proof (riskBeforeClamp_lt_1 data t).
  unfold Rmin, Rmax.
  destruct (Rle_dec (riskBeforeClamp data t * 100) 0.1);
    destruct (Rle_dec _ 100); lra.
Qed.


(** ** Numeric bounds *)

Ltac ln_bounds_q cn cd lo hi den :=
  let nlo := eval compute in (Z.opp lo) in
  apply ln_between;
  [ lra
  | exp_lower_bound cd cn nlo den
  | exp_lower_bound cn cd hi den ].

Lemma ln_38 : 3.6375 <= ln 38 <= 3.6376.
Proof. ln_bounds 38%Z 36375%Z 36376%Z 10000%Z. Qed.

Lemma ln_50 : 3.9120 <= ln 50 <= 3.9121.
Proof. ln_bounds 50%Z 39120%Z 39121%Z 10000%Z. Qed.

Lemma ln_55 : 4.0073 <= ln 55 <= 4.0074.
Proof. ln_bounds 55%Z 40073%Z 40074%Z 10000%Z. Qed.

Lemma ln_60 : 4.0943 <= ln 60 <= 4.0944.
Proof. ln_bounds 60%Z 40943%Z 40944%Z 10000%Z. Qed.

Lemma ln_74 : 4.3040 <= ln 74 <= 4.3041.
Proof. ln_bounds 74%Z 43040%Z 43041%Z 10000%Z. Qed.

Lemma ln_75 : 4.3174 <= ln 75 <= 4.3175.
Proof. ln_bounds 75%Z 43174%Z 43175%Z 10000%Z. Qed.

Lemma ln_78 : 4.3567 <= ln 78 <= 4.3568.
Proof. ln_bounds 78%Z 43567%Z 43568%Z 10000%Z. Qed.

Lemma ln_79 : 4.3694 <= ln 79 <= 4.3695.
Proof. ln_bounds 79%Z 43694%Z 43695%Z 10000%Z. Qed.

Lemma ln_105 : 4.6539 <= ln 105 <= 4.6540.
Proof. ln_bounds 105%Z 46539%Z 46540%Z 10000%Z. Qed.

Lemma ln_115 : 4.7449 <= ln 115 <= 4.7450.
Proof. ln_bounds 115%Z 47449%Z 47450%Z 10000%Z. Qed.

Lemma ln_145 : 4.9767 <= ln 145 <= 4.9768.
Proof. ln_bounds 145%Z 49767%Z 49768%Z 10000%Z. Qed.

Lemma ln_150 : 5.0106 <= ln 150 <= 5.0107.
Proof. ln_bounds 150%Z 50106%Z 50107%Z 10000%Z. Qed.

Lemma ln_160 : 5.0751 <= ln 160 <= 5.0752.
Proof. ln_bounds 160%Z 50751%Z 50752%Z 10000%Z. Qed.

Lemma ln_250 : 5.5214 <= ln 250 <= 5.5215.
Proof. ln_bounds 250%Z 55214%Z 55215%Z 10000%Z. Qed.

Lemma ln_s10_male : -0.0895 <= ln (s10 MALE) <= -0.0894.
Proof. unfold s10. ln_bounds_q 9144%Z 10000%Z (-895)%Z (-894)%Z 10000%Z. Qed.

Lemma ln_s10_female : -0.0341 <= ln (s10 FEMALE) <= -0.0340.
Proof. unfold s10. ln_bounds_q 9665%Z 10000%Z (-341)%Z (-340)%Z 10000%Z. Qed.

(** Bounds of [1 - s ^ e] for a survival probability [s]. *)
Lemma survival_complement_upper (s e : R) :
  1 - Rpower s e <= e * (- ln s).
Proof.
  unfold Rpower. pose proof (exp_ineq1_le (e * ln s)). lra.
Qed.

Lemma survival_complement_lower (s e z : R) :
  0 <= z -> z <= e * (- ln s) -> z / (1 + z) <= 1 - Rpower s e.
Proof.
  intros Hz Hle. unfold Rpower.
  assert (H1 : exp (e * ln s) <= exp (- z)).
  { destruct (Req_dec (e * ln s) (- z)) as [-> | Hne]; [ lra | ].
    left. apply exp_increasing. lra. }
  assert (H2 : exp (- z) <= / (1 + z)).
  { rewrite exp_Ropp. apply Rinv_le_contravar; [ lra | ].
    apply exp_ineq1_le. }
  replace (z / (1 + z)) with (1 - / (1 + z)) by (field; lra).
  lra.
Qed.

(** [exp (- x) <= c] from a lower bound of [exp x]. *)
Lemma exp_neg_upper (x c : R) : 0 < c -> / c <= exp x -> exp (- x) <= c.
Proof.
  intros Hc H. rewrite exp_Ropp. rewrite <- (Rinv_inv c).
  apply Rinv_le_contravar; [ apply Rinv_0_lt_compat; exact Hc | exact H ].
Qed.

Lemma riskFactor_ge_1 (data : MedicalData) :
  0 <= indivSum data - meanSum (gender data) -> 1 <= riskFactor data.
Proof.
  intro H. unfold riskFactor.
  pose proof (exp_ineq1_le (indivSum data - meanSum (gender data))). lra.
Qed.

Lemma riskFactor_withStatins (b : bool) (data : MedicalData) :
  riskFactor (withStatins b data) = riskFactor data.
Proof. reflexivity. Qed.

(** *** patientYoung: the unclamped percentage stays below the floor *)

Lemma patientYoung_predictor :
  indivSum patientYoung - meanSum (gender patientYoung) <= -3.97.
Proof.
  unfold indivSum, meanSum.
  rewrite evalAge_inside by (simpl; lra).
  cbn [patientYoung age gender totalCholesterol hdlCholesterol systolicBP
       isSmoker hasDiabetes onHypertensionMeds indicator].
  pose proof ln_30 as [A1 A2]. pose proof ln_150 as [T1 T2].
  pose proof ln_75 as [H1 H2]. pose proof ln_105 as [S1 S2].
  assert (AA : ln 30 * ln 30 <= 3.4012 * 3.4012) by nra.
  assert (AT : 3.4011 * 5.0106 <= ln 30 * ln 150) by nra.
  assert (AH : ln 30 * ln 75 <= 3.4012 * 4.3175) by nra.
  lra.
Qed.

Lemma patientYoung_riskFactor : riskFactor patientYoung <= 0.019.
Proof.
  unfold riskFactor.
  assert (H : exp (-3.97) <= 0.019).
  { replace (-3.97) with (Ropp 3.97) by lra.
    apply exp_neg_upper; [ lra | ].
    exp_lower_bound 1000%Z 19%Z 397%Z 100%Z. }
  pose proof patientYoung_predictor as Hp.
  destruct Hp as [Hlt | Heq].
  - pose proof (exp_increasing _ _ Hlt). lra.
  - rewrite Heq. exact H.
Qed.

Lemma patientYoung_below_floor (b : bool) (t : R) :
  0 <= t <= 15 ->
  riskBeforeClamp (withStatins b patientYoung) t * 100 <= 0.1.
Proof.
  intros Ht. rewrite riskBeforeClamp_eq, riskFactor_withStatins.
  cbn [withStatins gender onStatins patientYoung].
  pose proof patientYoung_riskFactor as Hrf.
  pose proof (riskFactor_pos patientYoung) as Hpos.
  pose proof ln_s10_female as [L1 L2].
  pose proof (survival_complement_upper (s10 FEMALE)
                (t / 10 * riskFactor patientYoung)) as Hup.
  set (rf := riskFactor patientYoung) in *.
  set (l := ln (s10 FEMALE)) in *.
  assert (Hz : t / 10 * rf * - l <= 1.5 * 0.019 * 0.0341).
  { assert (0 <= t / 10 * rf <= 1.5 * 0.019) by nra. nra. }
  assert (Hnn : 0 <= t / 10 * rf * - l).
  { assert (0 <= t / 10 * rf) by nra. nra. }
  destruct b; nra.
Qed.

Lemma patientYoung_outputs (b : bool) :
  let r := calculateCVRisk (withStatins b patientYoung) in
  CV.fiveYear r = 0.1 /\ CV.tenYear r = 0.1 /\ CV.fifteenYear r = 0.1.
Proof.
  cbn [calculateCVRisk CV.fiveYear CV.tenYear CV.fifteenYear].
  unfold calculateRiskAtTime.
  repeat split; apply clamp_floor; apply patientYoung_below_floor; lra.
Qed.

(** *** patientTreated: the unclamped percentage is well above the floor *)

Lemma patientTreated_predictor :
  0 <= indivSum patientTreated - meanSum (gender patientTreated).
Proof.
  unfold indivSum, meanSum.
  rewrite evalAge_inside by (simpl; lra).
  cbn [patientTreated age gender totalCholesterol hdlCholesterol systolicBP
       isSmoker hasDiabetes onHypertensionMeds indicator].
  pose proof ln_50 as [A1 A2]. pose proof ln_250 as [T1 T2].
  pose proof ln_38 as [H1 H2]. pose proof ln_145 as [S1 S2].
  assert (AT : ln 50 * ln 250 <= 3.9121 * 5.5215) by nra.
  assert (AH : 3.9120 * 3.6375 <= ln 50 * ln 38) by nra.
  lra.
Qed.

(** A lower bound [c] of the unclamped percentage from lower bounds [f] of
    the hazard multiplier and [l] of the baseline hazard. *)
Lemma percent_lower (data : MedicalData) (t f l c : R) :
  onStatins data = false ->
  0 <= t -> 0 <= f -> 0 <= l ->
  f <= riskFactor data -> l <= - ln (s10 (gender data)) ->
  c * (1 + t / 10 * f * l) <= t / 10 * f * l * 100 ->
  c <= riskBeforeClamp data t * 100.
Proof.
  intros Hs Ht Hf Hl Hrf Hln Hc.
  rewrite riskBeforeClamp_eq, Hs.
  set (z := t / 10 * f * l) in *.
  assert (Hz : 0 <= z) by (unfold z; apply Rmult_le_pos; [ nra | exact Hl ]).
  assert (Hle : z <= t / 10 * riskFactor data * - ln (s10 (gender data))).
  { unfold z.
    assert (0 <= t / 10 * f <= t / 10 * riskFactor data) by nra. nra. }
  pose proof (survival_complement_lower _ _ z Hz Hle) as Hlow.
  assert (Hdiv : z = z / (1 + z) * (1 + z)) by (field; lra).
  set (w := z / (1 + z)) in *.
  set (base := 1 - Rpower (s10 (gender data)) (t / 10 * riskFactor data)) in *.
  apply Rmult_le_reg_r with (1 + z); [ lra | ].
  nra.
Qed.

Lemma patientTreated_percent (t : R) :
  5 <= t -> 4 <= riskBeforeClamp (withStatins false patientTreated) t * 100.
Proof.
  intro Ht.
  assert (H5 : 4 <= riskBeforeClamp (withStatins false patientTreated) 5 * 100).
  { pose proof (riskFactor_ge_1 patientTreated patientTreated_predictor) as Hrf.
    pose proof ln_s10_male as [L1 L2].
    apply (percent_lower (withStatins false patientTreated) 5 1 0.0894 4);
      try lra; try reflexivity.
    - exact Hrf.
    - cbn [withStatins gender patientTreated]. lra. }
  destruct Ht as [Hlt | <-]; [ | exact H5 ].
  pose proof (riskBeforeClamp_increasing
                (withStatins false patientTreated) 5 t Hlt). lra.
Qed.

(** ** Horizon ordering on concrete records *)



(** ** Statin therapy *)

(** C4 (amended): the statin factor multiplies the risk after the survival
    exponentiation and before the scaling to a percentage and the final
    clamp: with statins the risk before the clamp is the risk without
    statins times 0.75, at every horizon.  For a record whose
    statin-reduced unclamped percentage is at least the floor 0.1 and whose
    unclamped percentage without statins is below 100 / 0.75 at each of the
    three horizons, neither output is clamped: the output without statins
    is risk * 100, the output with statins is (risk * 0.75) * 100, and so
    each output with statins is 0.75 times the output without statins up
    to the rounding of these products (a relative difference of at most
    1e-12), not necessarily to the last bit. *)
Theorem C4_statins_scale_by_three_quarters (data : MedicalData) :
  cvPre data ->
  let off := withStatins false data in
  let on := withStatins true data in
  (forall t : R,
     riskBeforeClamp off t
       = 1 - Rpower (Rpower (s10 (gender data)) (t / 10)) (riskFactor data) /\
     riskBeforeClamp on t = riskBeforeClamp off t * 0.75) /\
  ((forall t : R, t = 5 \/ t = 10 \/ t = 15 ->
      0.1 <= riskBeforeClamp on t * 100 /\
      riskBeforeClamp off t * 100 < 100 / 0.75) ->
   scaledByThreeQuarters (riskBeforeClamp off 5)
     (CV.fiveYear (calculateCVRisk off)) (CV.fiveYear (calculateCVRisk on)) /\
   scaledByThreeQuarters (riskBeforeClamp off 10)
     (CV.tenYear (calculateCVRisk off)) (CV.tenYear (calculateCVRisk on)) /\
   scaledByThreeQuarters (riskBeforeClamp off 15)
     (CV.fifteenYear (calculateCVRisk off))
     (CV.fifteenYear (calculateCVRisk on))).
Proof.
  intros _ off on.
  assert (Hfactor : forall t, riskBeforeClamp on t = riskBeforeClamp off t * 0.75).
  { intro t. reflexivity. }
  split; [ intro t; split; [ reflexivity | apply Hfactor ] | ].
  intros Hwin.
  assert (Hscale : forall t : R, t = 5 \/ t = 10 \/ t = 15 ->
    scaledByThreeQuarters (riskBeforeClamp off t)
      (calculateRiskAtTime off t) (calculateRiskAtTime on t)).
  { intros t Ht.
    destruct (Hwin t Ht) as [Hlo _].
    pose proof (riskBeforeClamp_lt_1 off t) as Hlt.
    rewrite Hfactor in Hlo.
    assert (Eoff : calculateRiskAtTime off t = riskBeforeClamp off t * 100).
    { unfold calculateRiskAtTime. apply clamp_id. lra. }
    assert (Eon : calculateRiskAtTime on t = riskBeforeClamp off t * 0.75 * 100).
    { unfold calculateRiskAtTime. rewrite Hfactor. apply clamp_id. lra. }
    split; [ exact Eoff | split; [ exact Eon | ] ].
    rewrite Eon, Eoff.
    replace (riskBeforeClamp off t * 0.75 * 100
             - 0.75 * (riskBeforeClamp off t * 100)) with 0 by lra.
    rewrite Rabs_R0. lra. }
  cbn [calculateCVRisk CV.fiveYear CV.tenYear CV.fifteenYear].
  repeat split; apply Hscale; auto.
Qed.

Lemma C4_statins_scale_by_three_quarters_witness :
  let off := withStatins false patientTreated in
  let on := withStatins true patientTreated in
  scaledByThreeQuarters (riskBeforeClamp off 10)
    (CV.tenYear (calculateCVRisk off)) (CV.tenYear (calculateCVRisk on)).
Proof.
  assert (Hpre : cvPre patientTreated) by (unfold cvPre; simpl; lra).
  apply (proj2 (C4_statins_scale_by_three_quarters patientTreated Hpre)).
  intros t Ht.
  pose proof (riskBeforeClamp_lt_1 (withStatins false patientTreated) t).
  assert (H5 : 5 <= t) by (destruct Ht as [-> | [-> | ->]]; lra).
  pose proof (patientTreated_percent t H5).
  change (riskBeforeClamp (withStatins true patientTreated) t)
    with (riskBeforeClamp (withStatins false patientTreated) t * 0.75).
  lra.
Defined.

(** C4 as stated fails: for [patientYoung] the unclamped percentage is below
    100 / 0.75 at every horizon, yet with and without statins the three
    outputs are all 0.1 (the floor of the clamp), not in the ratio 0.75. *)
Lemma C4_statin_factor_fails_at_floor :
  let off := withStatins false patientYoung in
  let on := withStatins true patientYoung in
  cvPre off /\
  (forall t : R, riskBeforeClamp off t * 100 < 100 / 0.75) /\
  CV.tenYear (calculateCVRisk off) = 0.1 /\
  CV.tenYear (calculateCVRisk on) = 0.1 /\
  CV.fiveYear (calculateCVRisk on) <> 0.75 * CV.fiveYear (calculateCVRisk off) /\
  CV.tenYear (calculateCVRisk on) <> 0.75 * CV.tenYear (calculateCVRisk off) /\
  CV.fifteenYear (calculateCVRisk on)
    <> 0.75 * CV.fifteenYear (calculateCVRisk off).
Proof.
  intros off on.
  destruct (patientYoung_outputs false) as [F5 [F10 F15]].
  destruct (patientYoung_outputs true) as [T5 [T10 T15]].
  fold off in F5, F10, F15. fold on in T5, T10, T15.
  split; [ unfold cvPre; simpl; lra | ].
  split.
  { intro t. pose proof (riskBeforeClamp_lt_1 off t). lra. }
  rewrite F5, F10, F15, T5, T10, T15.
  repeat split; lra.
Qed.

(** ** The optimal counterfactual *)

Lemma ln_le (x y : R) : 0 < x -> x <= y -> ln x <= ln y.
Proof.
  intros Hx [Hlt | ->]; [ left; apply ln_increasing; assumption | lra ].
Qed.

Lemma evalAge_le (data : MedicalData) (a : R) :
  30 <= a <= 79 -> age data <= a -> evalAge data <= a.
Proof.
  intros Ha H. unfold evalAge, Rmin, Rmax.
  destruct (Rle_dec (age data) 30); destruct (Rle_dec _ 79); lra.
Qed.

Lemma nonneg_sum_zero (a b c d : R) :
  0 <= a -> 0 <= b -> 0 <= c -> 0 <= d -> a + b + c + d = 0 ->
  a = 0 /\ b = 0 /\ c = 0 /\ d = 0.
Proof. intros. repeat split; lra. Qed.

(** The four differences between a record's predictor and the predictor of
    its optimal counterpart, for coefficients of the usual sign. *)
Lemma gap_terms (cT cH cS cS' cK T H S : R) (smoker meds : bool) :
  0 < cT -> cH < 0 -> 0 < cS -> cS < cS' -> (smoker = true -> 0 < cK) ->
  ln 160 <= T -> H <= ln 55 -> ln 115 <= S ->
  let a := cT * (T - ln 160) in
  let b := cH * (H - ln 55) in
  let c := (if meds then cS' else cS) * S - cS * ln 115 in
  let d := cK * indicator smoker in
  0 <= a /\ 0 <= b /\ 0 <= c /\ 0 <= d /\
  (a + b + c + d = 0 ->
   T = ln 160 /\ H = ln 55 /\ S = ln 115 /\ smoker = false /\ meds = false).
Proof.
  intros HcT HcH HcS HcS' HcK HT HH HS a b c d.
  pose proof ln_115 as [S1 S2].
  assert (Ha : 0 <= a) by (unfold a; nra).
  assert (Hb : 0 <= b) by (unfold b; nra).
  assert (Hc : 0 <= c) by (unfold c; destruct meds; nra).
  assert (Hd : 0 <= d).
  { unfold d, indicator. destruct smoker; [ pose proof (HcK eq_refl) | ]; lra. }
  split; [ exact Ha | split; [ exact Hb | split; [ exact Hc | ] ] ].
  split; [ exact Hd | ].
  intro Hsum.
  destruct (nonneg_sum_zero a b c d Ha Hb Hc Hd Hsum) as [Ea [Eb [Ec Ed]]].
  split; [ | split; [ | split; [ | split ] ] ].
  - unfold a in Ea. nra.
  - unfold b in Eb. nra.
  - unfold c in Ec. destruct meds; nra.
  - unfold d, indicator in Ed. destruct smoker; [ | reflexivity ].
    pose proof (HcK eq_refl). lra.
  - unfold c in Ec. destruct meds; [ exfalso; nra | reflexivity ].
Qed.

Lemma optimal_fields (data : MedicalData) :
  totalCholesterol data = 160 -> hdlCholesterol data = 55 ->
  systolicBP data = 115 -> isSmoker data = false ->
  onHypertensionMeds data = false -> atOptimal data.
Proof. intros. unfold atOptimal. auto. Qed.

(** Under the sign conditions the optimal counterpart has the smaller
    linear predictor, and an equal one only for a record already at the
    optimal constants. *)
Lemma predictor_gap (data : MedicalData) :
  cvPre data -> noBetterThanOptimal data -> usualDirection data ->
  indivSum (optimalData data) <= indivSum data /\
  (indivSum (optimalData data) = indivSum data -> atOptimal data).
Proof.
  intros [Hage [Htc [Hhdl Hsbp]]] [W1 [W3 W4]] Hdir.
  pose proof (evalAge_range data) as [A30 A79].
  assert (HT : ln 160 <= ln (totalCholesterol data)) by (apply ln_le; lra).
  assert (HH : ln (hdlCholesterol data) <= ln 55) by (apply ln_le; lra).
  assert (HS : ln 115 <= ln (systolicBP data)) by (apply ln_le; lra).
  assert (HA1 : ln 30 <= ln (evalAge data)) by (apply ln_le; lra).
  assert (HA2 : ln (evalAge data) <= ln 79) by (apply ln_le; lra).
  pose proof ln_30 as [L30 _]. pose proof ln_79 as [_ L79].
  assert (Hfinish : forall a b c d : R,
    0 <= a -> 0 <= b -> 0 <= c -> 0 <= d ->
    (a + b + c + d = 0 ->
     ln (totalCholesterol data) = ln 160 /\ ln (hdlCholesterol data) = ln 55 /\
     ln (systolicBP data) = ln 115 /\ isSmoker data = false /\
     onHypertensionMeds data = false) ->
    indivSum data - indivSum (optimalData data) = a + b + c + d ->
    indivSum (optimalData data) <= indivSum data /\
    (indivSum (optimalData data) = indivSum data -> atOptimal data)).
  { intros a b c d Ha Hb Hc Hd Hzero E.
    split; [ lra | ].
    intro Heq.
    destruct Hzero as [ET [EH [ES [Esm Emeds]]]]; [ lra | ].
    apply optimal_fields; try assumption; apply ln_inv; assumption || lra. }
  unfold usualDirection in Hdir.
  destruct (gender data) eqn:Hg.
  - assert (HK : isSmoker data = true -> 0 < 7.837 - 1.795 * ln (evalAge data)).
    { intro Hsm. destruct Hdir as [Hf | H78]; [ congruence | ].
      assert (evalAge data <= 78) by (apply evalAge_le; lra).
      assert (ln (evalAge data) <= ln 78) by (apply ln_le; lra).
      pose proof ln_78 as [_ L78]. lra. }
    pose proof (gap_terms (11.853 - 2.664 * ln (evalAge data))
                  (-7.990 + 1.769 * ln (evalAge data)) 1.764 1.797
                  (7.837 - 1.795 * ln (evalAge data))
                  (ln (totalCholesterol data)) (ln (hdlCholesterol data))
                  (ln (systolicBP data)) (isSmoker data)
                  (onHypertensionMeds data)
                  ltac:(lra) ltac:(lra) ltac:(lra) ltac:(lra) HK HT HH HS) as G.
    cbv zeta in G. destruct G as [Ha [Hb [Hc [Hd Hzero]]]].
    apply (Hfinish _ _ _ _ Ha Hb Hc Hd Hzero).
    unfold indivSum. change (evalAge (optimalData data)) with (evalAge data).
    cbn [optimalData gender totalCholesterol hdlCholesterol systolicBP
         isSmoker hasDiabetes onHypertensionMeds].
    rewrite Hg. unfold indicator.
    destruct (onHypertensionMeds data); destruct (isSmoker data); lra.
  - assert (H74 : ln (evalAge data) <= 4.3041).
    { assert (evalAge data <= 74) by (apply evalAge_le; lra).
      assert (ln (evalAge data) <= ln 74) by (apply ln_le; lra).
      pose proof ln_74 as [_ L74]. lra. }
    pose proof (gap_terms (13.540 - 3.114 * ln (evalAge data))
                  (-13.578 + 3.149 * ln (evalAge data)) 1.957 2.019
                  (7.574 - 1.665 * ln (evalAge data))
                  (ln (totalCholesterol data)) (ln (hdlCholesterol data))
                  (ln (systolicBP data)) (isSmoker data)
                  (onHypertensionMeds data)
                  ltac:(lra) ltac:(lra) ltac:(lra) ltac:(lra)
                  ltac:(intros _; lra) HT HH HS) as G.
    cbv zeta in G. destruct G as [Ha [Hb [Hc [Hd Hzero]]]].
    apply (Hfinish _ _ _ _ Ha Hb Hc Hd Hzero).
    unfold indivSum. change (evalAge (optimalData data)) with (evalAge data).
    cbn [optimalData gender totalCholesterol hdlCholesterol systolicBP
         isSmoker hasDiabetes onHypertensionMeds].
    rewrite Hg. unfold indicator.
    destruct (onHypertensionMeds data); destruct (isSmoker data); lra.
Qed.

Lemma Rpower_survival_anti_le (s e1 e2 : R) :
  0 < s < 1 -> e1 <= e2 -> Rpower s e2 <= Rpower s e1.
Proof.
  intros Hs [Hlt | ->]; [ | lra ].
  left. apply Rpower_survival_anti; assumption.
Qed.

Lemma exp_le (x y : R) : x <= y -> exp x <= exp y.
Proof.
  intros [Hlt | ->]; [ left; apply exp_increasing; exact Hlt | lra ].
Qed.

(** C6 (amended): for every valid record with strictly positive ACR that
    is not on statins, whose systolic pressure, total cholesterol and HDL
    are whole numbers (as the form stores them) with systolic pressure at
    least 115, total cholesterol at least 160 and HDL at most 55, and whose
    age keeps the effects of cholesterol, HDL and smoking in their usual
    direction (any age for a non-smoking man, at most 78 for a man who
    smokes, at most 74 for a woman), the ten-year risk of
    calculateOptimalRisk is at most the ten-year risk of calculateCVRisk;
    when the original ten-year risk is above the floor 0.1 the two are
    equal only if systolic pressure, total cholesterol, HDL, smoking and
    hypertension medication already equal the optimal constants.  The
    diastolic pressure is not constrained: calculateCVRisk does not read
    it. *)
Theorem C6_optimal_not_above_original (data : MedicalData) :
  0 < acr data -> cvPre data ->
  onStatins data = false ->
  noBetterThanOptimal data -> wholeNumberInputs data ->
  usualDirection data ->
  let opt := CV.tenYear (calculateOptimalRisk data) in
  let orig := CV.tenYear (calculateCVRisk data) in
  opt <= orig /\
  (0.1 < orig -> opt = orig -> atOptimal data).
Proof.
  intros _ Hpre Hst Hworse _ Hdir opt orig.
  destruct (predictor_gap data Hpre Hworse Hdir) as [Hle Heq].
  assert (Hrf : riskFactor (optimalData data) <= riskFactor data).
  { unfold riskFactor. change (gender (optimalData data)) with (gender data).
    apply exp_le. lra. }
  assert (Eopt : riskBeforeClamp (optimalData data) 10
                 = 1 - Rpower (s10 (gender data)) (riskFactor (optimalData data))).
  { rewrite riskBeforeClamp_eq.
    change (gender (optimalData data)) with (gender data).
    change (onStatins (optimalData data)) with false.
    replace (10 / 10 * riskFactor (optimalData data))
      with (riskFactor (optimalData data)) by lra.
    lra. }
  assert (Eorig : riskBeforeClamp data 10
                  = 1 - Rpower (s10 (gender data)) (riskFactor data)).
  { rewrite riskBeforeClamp_eq, Hst.
    replace (10 / 10 * riskFactor data) with (riskFactor data) by lra.
    lra. }
  pose proof (Rpower_survival_anti_le _ _ _ (s10_range (gender data)) Hrf) as Hpow.
  subst opt orig.
  unfold calculateOptimalRisk. cbn [calculateCVRisk CV.tenYear].
  split.
  - unfold calculateRiskAtTime. apply clamp_mono. rewrite Eopt, Eorig. lra.
  - rewrite !calculateRiskAtTime_floor, Eopt, Eorig.
    intros Habove Hsame.
    apply Heq.
    assert (Epow : Rpower (s10 (gender data)) (riskFactor (optimalData data))
                   = Rpower (s10 (gender data)) (riskFactor data)).
    { revert Habove Hsame. unfold Rmax.
      repeat destruct (Rle_dec _ 0.1); intros; lra. }
    apply Rpower_survival_inj in Epow; [ | apply s10_range ].
    unfold riskFactor in Epow.
    change (gender (optimalData data)) with (gender data) in Epow.
    apply exp_inv in Epow. lra.
Qed.

Lemma C6_optimal_not_above_original_witness :
  diastolicBP (handleInputChange patientTreated (SetDiastolicBP 70)) < 75 /\
  CV.tenYear (calculateOptimalRisk
                (handleInputChange patientTreated (SetDiastolicBP 70)))
  <= CV.tenYear (calculateCVRisk
                   (handleInputChange patientTreated (SetDiastolicBP 70))).
Proof.
  split; [ simpl; lra | ].
  apply (C6_optimal_not_above_original
           (handleInputChange patientTreated (SetDiastolicBP 70))).
  - simpl; lra.
  - unfold cvPre; simpl; lra.
  - reflexivity.
  - unfold noBetterThanOptimal; simpl; lra.
  - unfold wholeNumberInputs; simpl.
    split; [ exists 145%Z | split; [ exists 250%Z | exists 38%Z ] ];
      reflexivity.
  - left. reflexivity.
Defined.

(** *** patientOnStatins *)

Lemma patientOnStatins_predictor :
  -0.5 <= indivSum (optimalData patientOnStatins)
          - meanSum (gender patientOnStatins).
Proof.
  unfold indivSum, meanSum.
  rewrite evalAge_inside by (simpl; lra).
  cbn [optimalData patientOnStatins age gender totalCholesterol
       hdlCholesterol systolicBP isSmoker hasDiabetes onHypertensionMeds
       indicator].
  pose proof ln_60 as [A1 A2]. pose proof ln_160 as [T1 T2].
  pose proof ln_55 as [H1 H2]. pose proof ln_115 as [S1 S2].
  assert (AT : ln 60 * ln 160 <= 4.0944 * 5.0752) by nra.
  assert (AH : 4.0943 * 4.0073 <= ln 60 * ln 55) by nra.
  lra.
Qed.

Lemma patientOnStatins_optimal_percent :
  4 <= riskBeforeClamp (optimalData patientOnStatins) 10 * 100.
Proof.
  pose proof patientOnStatins_predictor as Hp.
  pose proof ln_s10_male as [L1 L2].
  apply (percent_lower (optimalData patientOnStatins) 10 0.5 0.0894 4);
    try lra; try reflexivity.
  - unfold riskFactor.
    change (gender (optimalData patientOnStatins))
      with (gender patientOnStatins).
    pose proof (exp_ineq1_le (indivSum (optimalData patientOnStatins)
                              - meanSum (gender patientOnStatins))).
    lra.
  - cbn [optimalData gender patientOnStatins]. lra.
Qed.

(** *** patientElderly *)

Lemma patientElderly_optimal_predictor :
  0 <= indivSum (optimalData patientElderly) - meanSum (gender patientElderly).
Proof.
  unfold indivSum, meanSum.
  rewrite evalAge_inside by (simpl; lra).
  cbn [optimalData patientElderly age gender totalCholesterol
       hdlCholesterol systolicBP isSmoker hasDiabetes onHypertensionMeds
       indicator].
  pose proof ln_79 as [A1 A2]. pose proof ln_160 as [T1 T2].
  pose proof ln_55 as [H1 H2]. pose proof ln_115 as [S1 S2].
  assert (AA : 4.3694 * 4.3694 <= ln 79 * ln 79) by nra.
  assert (AT : ln 79 * ln 160 <= 4.3695 * 5.0752) by nra.
  assert (AH : 4.3694 * 4.0073 <= ln 79 * ln 55) by nra.
  lra.
Qed.

Lemma patientElderly_optimal_percent :
  3 <= riskBeforeClamp (optimalData patientElderly) 10 * 100.
Proof.
  pose proof (riskFactor_ge_1 (optimalData patientElderly)
                patientElderly_optimal_predictor) as Hrf.
  pose proof ln_s10_female as [L1 L2].
  apply (percent_lower (optimalData patientElderly) 10 1 0.0340 3);
    try lra; try reflexivity.
  cbn [optimalData gender patientElderly]. lra.
Qed.

(** At 79 the total-cholesterol coefficient of the female equation,
    13.540 - 3.114 ln(age), is negative: the higher cholesterol lowers the
    predictor. *)
Lemma patientElderly_predictor_below_optimal :
  indivSum patientElderly < indivSum (optimalData patientElderly).
Proof.
  unfold indivSum.
  rewrite !evalAge_inside by (simpl; lra).
  cbn [optimalData patientElderly age gender totalCholesterol
       hdlCholesterol systolicBP isSmoker hasDiabetes onHypertensionMeds
       indicator].
  pose proof ln_79 as [A1 A2].
  assert (L : ln 160 < ln 300) by (apply ln_increasing; lra).
  assert (G : (13.540 - 3.114 * ln 79) * (ln 300 - ln 160) < 0) by nra.
  lra.
Qed.

(** C6 as stated fails.  [patientOnStatins] has every modifiable field at
    the optimal constant except that he takes statins: forcing onStatins to
    false removes the factor 0.75 and the optimal ten-year risk is the
    larger one.  [patientElderly] takes no statins and has a total
    cholesterol of 300, worse than 160: at 79 the female equation gives
    her a lower ten-year risk than her optimal counterpart. *)
Lemma C6_optimal_can_exceed_original :
  (0 < acr patientOnStatins /\ cvPre patientOnStatins /\
   worseThanOptimal patientOnStatins /\
   CV.tenYear (calculateCVRisk patientOnStatins)
   < CV.tenYear (calculateOptimalRisk patientOnStatins)) /\
  (0 < acr patientElderly /\ cvPre patientElderly /\
   worseThanOptimal patientElderly /\ onStatins patientElderly = false /\
   CV.tenYear (calculateCVRisk patientElderly)
   < CV.tenYear (calculateOptimalRisk patientElderly)).
Proof.
  split.
  - split; [ simpl; lra | ].
    split; [ unfold cvPre; simpl; lra | ].
    split; [ unfold worseThanOptimal; simpl; lra | ].
    unfold calculateOptimalRisk. cbn [calculateCVRisk CV.tenYear].
    rewrite !calculateRiskAtTime_floor.
    pose proof patientOnStatins_optimal_percent as Hopt.
    assert (E : riskBeforeClamp patientOnStatins 10
                = riskBeforeClamp (optimalData patientOnStatins) 10 * 0.75)
      by reflexivity.
    rewrite E. unfold Rmax.
    repeat destruct (Rle_dec _ 0.1); lra.
  - split; [ simpl; lra | ].
    split; [ unfold cvPre; simpl; lra | ].
    split; [ unfold worseThanOptimal; simpl; lra | ].
    split; [ reflexivity | ].
    unfold calculateOptimalRisk. cbn [calculateCVRisk CV.tenYear].
    rewrite !calculateRiskAtTime_floor.
    pose proof patientElderly_optimal_percent as Hopt.
    assert (Hrf : riskFactor patientElderly
                  < riskFactor (optimalData patientElderly)).
    { unfold riskFactor.
      change (gender (optimalData patientElderly)) with (gender patientElderly).
      apply exp_increasing.
      pose proof patientElderly_predictor_below_optimal. lra. }
    assert (Hlt : riskBeforeClamp patientElderly 10
                  < riskBeforeClamp (optimalData patientElderly) 10).
    { rewrite !riskBeforeClamp_eq.
      change (gender (optimalData patientElderly)) with (gender patientElderly).
      change (onStatins (optimalData patientElderly)) with false.
      change (onStatins patientElderly) with false.
      assert (He : 10 / 10 * riskFactor patientElderly
                   < 10 / 10 * riskFactor (optimalData patientElderly)) by lra.
      pose proof (Rpower_survival_anti _ _ _
                    (s10_range (gender patientElderly)) He).
      lra. }
    unfold Rmax. repeat destruct (Rle_dec _ 0.1); lra.
Qed.

(** * Further properties of the risk engine *)

(** ** Renal risk *)

Lemma renal_outputs_increasing_in_lp (d1 d2 : MedicalData) :
  renalLp d1 < renalLp d2 ->
  Renal.twoYear (calculateRenalRisk d1) < Renal.twoYear (calculateRenalRisk d2) /\
  Renal.fiveYear (calculateRenalRisk d1) < Renal.fiveYear (calculateRenalRisk d2) /\
  Renal.tenYear (calculateRenalRisk d1) < Renal.tenYear (calculateRenalRisk d2).
Proof.
  intro Hlp.
  pose proof renal_constants as [H2 [H5 H10]].
  assert (He : exp (renalLp d1) < exp (renalLp d2)) by (apply exp_increasing; exact Hlp).
  cbn [calculateRenalRisk Renal.twoYear Renal.fiveYear Renal.tenYear].
  pose proof (Rpower_survival_anti renal_s2 _ _ H2 He).
  pose proof (Rpower_survival_anti renal_s5 _ _ H5 He).
  pose proof (Rpower_survival_anti renal_s10 _ _ H10 He).
  repeat split; lra.
Qed.

Lemma renal_outputs_mono_in_lp (d1 d2 : MedicalData) :
  renalLp d1 <= renalLp d2 ->
  Renal.twoYear (calculateRenalRisk d1) <= Renal.twoYear (calculateRenalRisk d2) /\
  Renal.fiveYear (calculateRenalRisk d1) <= Renal.fiveYear (calculateRenalRisk d2) /\
  Renal.tenYear (calculateRenalRisk d1) <= Renal.tenYear (calculateRenalRisk d2).
Proof.
  intros [Hlt | Heq].
  - destruct (renal_outputs_increasing_in_lp d1 d2 Hlt) as [H2 [H5 H10]].
    repeat split; lra.
  - cbn [calculateRenalRisk Renal.twoYear Renal.fiveYear Renal.tenYear].
    rewrite Heq. repeat split; lra.
Qed.



(** X2: of two records with the same age, sex and positive ACR, the one with
    the higher eGFR never has the higher renal risk, at 2, 5 and 10
    years. *)
Theorem renal_risk_decreasing_in_eGFR (d1 d2 : MedicalData) :
  age d1 = age d2 -> gender d1 = gender d2 -> acr d1 = acr d2 ->
  0 < acr d1 ->
  eGFR d1 <= eGFR d2 ->
  Renal.twoYear (calculateRenalRisk d2) <= Renal.twoYear (calculateRenalRisk d1) /\
  Renal.fiveYear (calculateRenalRisk d2) <= Renal.fiveYear (calculateRenalRisk d1) /\
  Renal.tenYear (calculateRenalRisk d2) <= Renal.tenYear (calculateRenalRisk d1).
Proof.
  intros Hage Hg Hacr _ He.
  apply renal_outputs_mono_in_lp.
  unfold renalLp, isMale. rewrite Hage, Hg, Hacr. lra.
Qed.

(** X3: of two records with the same age, sex and eGFR, the one with the
    higher (positive) ACR never has the lower renal risk, at 2, 5 and 10
    years. *)
Theorem renal_risk_increasing_in_acr (d1 d2 : MedicalData) :
  age d1 = age d2 -> gender d1 = gender d2 -> eGFR d1 = eGFR d2 ->
  0 < acr d1 ->
  acr d1 <= acr d2 ->
  Renal.twoYear (calculateRenalRisk d1) <= Renal.twoYear (calculateRenalRisk d2) /\
  Renal.fiveYear (calculateRenalRisk d1) <= Renal.fiveYear (calculateRenalRisk d2) /\
  Renal.tenYear (calculateRenalRisk d1) <= Renal.tenYear (calculateRenalRisk d2).
Proof.
  intros Hage Hg He Hpos Hacr.
  apply renal_outputs_mono_in_lp.
  pose proof (ln_le _ _ Hpos Hacr).
  unfold renalLp, isMale. rewrite Hage, Hg, He. lra.
Qed.

(** X4: with eGFR and positive ACR equal, a woman never has a higher renal
    risk than a man of the same age, and of two people of the same sex
    the older never has the higher renal risk (the age coefficient of the
    equation is negative; the age is not clamped here). *)
Theorem renal_risk_by_sex_and_age (d1 d2 : MedicalData) :
  eGFR d1 = eGFR d2 -> acr d1 = acr d2 -> 0 < acr d1 ->
  (age d1 = age d2 /\ gender d1 = FEMALE /\ gender d2 = MALE) \/
  (gender d1 = gender d2 /\ age d2 <= age d1) ->
  Renal.twoYear (calculateRenalRisk d1) <= Renal.twoYear (calculateRenalRisk d2) /\
  Renal.fiveYear (calculateRenalRisk d1) <= Renal.fiveYear (calculateRenalRisk d2) /\
  Renal.tenYear (calculateRenalRisk d1) <= Renal.tenYear (calculateRenalRisk d2).
Proof.
  intros He Hacr _ H.
  apply renal_outputs_mono_in_lp.
  unfold renalLp, isMale. rewrite He, Hacr.
  destruct H as [[Hage [Hf Hm]] | [Hg Hage]].
  - rewrite Hage, Hf, Hm. lra.
  - rewrite Hg. lra.
Qed.

Lemma renal_risk_decreasing_in_eGFR_witness :
  Renal.fiveYear (calculateRenalRisk (handleInputChange patientTreated (SetEGFR 90)))
  <= Renal.fiveYear (calculateRenalRisk patientTreated).
Proof.
  apply (renal_risk_decreasing_in_eGFR patientTreated
           (handleInputChange patientTreated (SetEGFR 90)));
    try reflexivity; simpl; lra.
Defined.

Lemma renal_risk_increasing_in_acr_witness :
  Renal.fiveYear (calculateRenalRisk patientTreated)
  <= Renal.fiveYear (calculateRenalRisk (handleInputChange patientTreated (SetAcr 300))).
Proof.
  apply (renal_risk_increasing_in_acr patientTreated
           (handleInputChange patientTreated (SetAcr 300)));
    try reflexivity; simpl; lra.
Defined.

Lemma renal_risk_by_sex_and_age_witness :
  Renal.fiveYear (calculateRenalRisk (handleInputChange patientTreated (SetGender FEMALE)))
  <= Renal.fiveYear (calculateRenalRisk patientTreated) /\
  Renal.fiveYear (calculateRenalRisk (handleInputChange patientTreated (SetAge 70)))
  <= Renal.fiveYear (calculateRenalRisk patientTreated).
Proof.
  split.
  - apply (renal_risk_by_sex_and_age
             (handleInputChange patientTreated (SetGender FEMALE)) patientTreated);
      try reflexivity; [ simpl; lra | ].
    left. repeat split.
  - apply (renal_risk_by_sex_and_age
             (handleInputChange patientTreated (SetAge 70)) patientTreated);
      try reflexivity; [ simpl; lra | ].
    right. split; [ reflexivity | simpl; lra ].
Defined.

(** ** Cardiovascular risk: what it reads and how it moves *)

(** The result of calculateCVRisk is a function of the clamped age and of
    the eight other inputs it destructures. *)
Lemma calculateRiskAtTime_inputs (d1 d2 : MedicalData) (t : R) :
  evalAge d1 = evalAge d2 -> gender d1 = gender d2 ->
  systolicBP d1 = systolicBP d2 ->
  totalCholesterol d1 = totalCholesterol d2 ->
  hdlCholesterol d1 = hdlCholesterol d2 ->
  hasDiabetes d1 = hasDiabetes d2 -> isSmoker d1 = isSmoker d2 ->
  onHypertensionMeds d1 = onHypertensionMeds d2 ->
  onStatins d1 = onStatins d2 ->
  calculateRiskAtTime d1 t = calculateRiskAtTime d2 t.
Proof.
  intros Ha Hg Hs Ht Hh Hd Hk Hm Hst.
  unfold calculateRiskAtTime, riskBeforeClamp, riskFactor, indivSum.
  rewrite Ha, Hg, Hs, Ht, Hh, Hd, Hk, Hm, Hst. reflexivity.
Qed.

Lemma calculateCVRisk_inputs (d1 d2 : MedicalData) :
  evalAge d1 = evalAge d2 -> gender d1 = gender d2 ->
  systolicBP d1 = systolicBP d2 ->
  totalCholesterol d1 = totalCholesterol d2 ->
  hdlCholesterol d1 = hdlCholesterol d2 ->
  hasDiabetes d1 = hasDiabetes d2 -> isSmoker d1 = isSmoker d2 ->
  onHypertensionMeds d1 = onHypertensionMeds d2 ->
  onStatins d1 = onStatins d2 ->
  calculateCVRisk d1 = calculateCVRisk d2.
Proof.
  intros Ha Hg Hs Ht Hh Hd Hk Hm Hst.
  unfold calculateCVRisk.
  rewrite !(calculateRiskAtTime_inputs d1 d2) by assumption.
  reflexivity.
Qed.

(** X5: the age enters calculateCVRisk only through its clamp to [30, 79]:
    two records that agree on the other eight inputs and whose ages are
    both at most 30, or both at least 79, get the same result. *)
Theorem cv_risk_ignores_age_outside_30_79 (d1 d2 : MedicalData) :
  gender d1 = gender d2 ->
  systolicBP d1 = systolicBP d2 ->
  totalCholesterol d1 = totalCholesterol d2 ->
  hdlCholesterol d1 = hdlCholesterol d2 ->
  hasDiabetes d1 = hasDiabetes d2 -> isSmoker d1 = isSmoker d2 ->
  onHypertensionMeds d1 = onHypertensionMeds d2 ->
  onStatins d1 = onStatins d2 ->
  (age d1 <= 30 /\ age d2 <= 30) \/ (79 <= age d1 /\ 79 <= age d2) ->
  calculateCVRisk d1 = calculateCVRisk d2.
Proof.
  intros Hg Hs Ht Hh Hd Hk Hm Hst Hage.
  apply calculateCVRisk_inputs; try assumption.
  destruct Hage as [[H1 H2] | [H1 H2]].
  - rewrite !evalAge_below by assumption. reflexivity.
  - rewrite !evalAge_above by assumption. reflexivity.
Qed.

Lemma cv_risk_ignores_age_outside_30_79_witness :
  calculateCVRisk (handleInputChange patientTreated (SetAge 18))
  = calculateCVRisk (handleInputChange patientTreated (SetAge 30)) /\
  calculateCVRisk (handleInputChange patientTreated (SetAge 95))
  = calculateCVRisk (handleInputChange patientTreated (SetAge 79)).
Proof.
  split;
    apply cv_risk_ignores_age_outside_30_79; try reflexivity;
    [ left | right ]; simpl; lra.
Defined.

(** The risk at a horizon [t >= 0] is monotone in the linear predictor. *)
Lemma calculateRiskAtTime_mono_in_predictor (d1 d2 : MedicalData) (t : R) :
  gender d1 = gender d2 -> onStatins d1 = onStatins d2 ->
  indivSum d1 <= indivSum d2 -> 0 <= t ->
  calculateRiskAtTime d1 t <= calculateRiskAtTime d2 t.
Proof.
  intros Hg Hst Hsum Ht.
  assert (Hrf : riskFactor d1 <= riskFactor d2).
  { unfold riskFactor. rewrite Hg. apply exp_le. lra. }
  pose proof (riskFactor_pos d1) as Hpos.
  assert (He : t / 10 * riskFactor d1 <= t / 10 * riskFactor d2) by nra.
  pose proof (Rpower_survival_anti_le _ _ _ (s10_range (gender d2)) He) as Hp.
  unfold calculateRiskAtTime. apply clamp_mono.
  rewrite !riskBeforeClamp_eq, Hg, Hst.
  destruct (onStatins d2); lra.
Qed.

Lemma cvLe_of_horizons (d1 d2 : MedicalData) :
  (forall t : R, 0 <= t -> calculateRiskAtTime d1 t <= calculateRiskAtTime d2 t) ->
  cvLe (calculateCVRisk d1) (calculateCVRisk d2).
Proof.
  intro H. unfold cvLe.
  cbn [calculateCVRisk CV.fiveYear CV.tenYear CV.fifteenYear].
  repeat split; apply H; lra.
Qed.

(** X6: editing height, weight, bmi, diastolicBP, useFullKfre, phosphate,
    bicarbonate, calcium or albumin changes neither the result of
    getCombinedResults nor that of calculateOptimalRisk; editing eGFR or
    acr leaves the whole result of calculateCVRisk (and so cvTimeline and
    cv30y) unchanged; editing a blood-pressure, lipid, diabetes, smoking or
    medication field leaves the result of calculateRenalRisk unchanged. *)
Theorem form_edits_that_leave_results_unchanged
  (prev : MedicalData) (u : FieldUpdate) :
  (ignoredByEngine u = true ->
   getCombinedResults (handleInputChange prev u) = getCombinedResults prev /\
   calculateOptimalRisk (handleInputChange prev u) = calculateOptimalRisk prev) /\
  (renalOnly u = true ->
   calculateCVRisk (handleInputChange prev u) = calculateCVRisk prev /\
   cvTimeline (getCombinedResults (handleInputChange prev u))
     = cvTimeline (getCombinedResults prev) /\
   cv30y (getCombinedResults (handleInputChange prev u))
     = cv30y (getCombinedResults prev)) /\
  (cardiovascularOnly u = true ->
   calculateRenalRisk (handleInputChange prev u) = calculateRenalRisk prev /\
   renalTimeline (getCombinedResults (handleInputChange prev u))
     = renalTimeline (getCombinedResults prev)).
Proof.
  split; [ | split ]; intro Hu; destruct u; try discriminate Hu;
    repeat split; reflexivity.
Qed.

Lemma form_edits_that_leave_results_unchanged_witness :
  getCombinedResults (handleInputChange patientTreated (SetWeight 120))
  = getCombinedResults patientTreated /\
  calculateCVRisk (handleInputChange patientTreated (SetEGFR 20))
  = calculateCVRisk patientTreated /\
  calculateRenalRisk (handleInputChange patientTreated (SetIsSmoker true))
  = calculateRenalRisk patientTreated.
Proof.
  destruct (form_edits_that_leave_results_unchanged patientTreated (SetWeight 120))
    as [H1 _].
  destruct (form_edits_that_leave_results_unchanged patientTreated (SetEGFR 20))
    as [_ [H2 _]].
  destruct (form_edits_that_leave_results_unchanged patientTreated (SetIsSmoker true))
    as [_ [_ H3]].
  split; [ exact (proj1 (H1 eq_refl)) | ].
  split; [ exact (proj1 (H2 eq_refl)) | exact (proj1 (H3 eq_refl)) ].
Defined.



Lemma indivSum_with_diabetes (prev : MedicalData) :
  hasDiabetes prev = false ->
  indivSum prev < indivSum (handleInputChange prev (SetHasDiabetes true)).
Proof.
  intro Hd. unfold indivSum.
  change (evalAge (handleInputChange prev (SetHasDiabetes true)))
    with (evalAge prev).
  cbn [handleInputChange gender totalCholesterol hdlCholesterol systolicBP
       isSmoker hasDiabetes onHypertensionMeds].
  rewrite Hd. unfold indicator.
  destruct (gender prev); destruct (onHypertensionMeds prev);
    destruct (isSmoker prev); lra.
Qed.

(** X8: recording diabetes for a patient who had none never lowers a
    cardiovascular output, at any of the three horizons. *)
Theorem diabetes_never_lowers_cv_risk (prev : MedicalData) :
  cvPre prev -> hasDiabetes prev = false ->
  cvLe (calculateCVRisk prev)
       (calculateCVRisk (handleInputChange prev (SetHasDiabetes true))).
Proof.
  intros _ Hd.
  pose proof (indivSum_with_diabetes prev Hd) as Hsum.
  apply cvLe_of_horizons. intros t Ht.
  apply calculateRiskAtTime_mono_in_predictor; try reflexivity; lra.
Qed.

Lemma diabetes_never_lowers_cv_risk_witness :
  CV.tenYear (calculateCVRisk patientTreated)
  <= CV.tenYear (calculateCVRisk (handleInputChange patientTreated (SetHasDiabetes true))).
Proof.
  assert (Hpre : cvPre patientTreated) by (unfold cvPre; simpl; lra).
  destruct (diabetes_never_lowers_cv_risk patientTreated Hpre eq_refl)
    as [_ [H _]].
  exact H.
Defined.

(** X9: raising a positive systolic pressure never lowers a cardiovascular
    output, for either sex and with or without hypertension medication. *)
Theorem cv_risk_monotone_in_systolicBP (prev : MedicalData) (x : R) :
  cvPre prev -> systolicBP prev <= x ->
  cvLe (calculateCVRisk prev)
       (calculateCVRisk (handleInputChange prev (SetSystolicBP x))).
Proof.
  intros [_ [_ [_ Hpos]]] Hx.
  apply cvLe_of_horizons. intros t Ht.
  apply calculateRiskAtTime_mono_in_predictor; try reflexivity; [ | exact Ht ].
  pose proof (ln_le _ _ Hpos Hx) as Hln.
  unfold indivSum.
  change (evalAge (handleInputChange prev (SetSystolicBP x))) with (evalAge prev).
  cbn [handleInputChange gender totalCholesterol hdlCholesterol systolicBP
       isSmoker hasDiabetes onHypertensionMeds].
  destruct (gender prev); destruct (onHypertensionMeds prev); lra.
Qed.

Lemma cv_risk_monotone_in_systolicBP_witness :
  cvLe (calculateCVRisk patientTreated)
       (calculateCVRisk (handleInputChange patientTreated (SetSystolicBP 160))).
Proof.
  apply cv_risk_monotone_in_systolicBP.
  - unfold cvPre; simpl; lra.
  - simpl; lra.
Defined.

(** X10: at the same systolic pressure of at least 1 mmHg a patient on
    hypertension medication never has a lower cardiovascular output than
    without it: the treated coefficient of ln(SBP) is the larger one for
    both sexes. *)
Theorem hypertension_meds_never_lower_cv_risk (prev : MedicalData) :
  cvPre prev -> 1 <= systolicBP prev ->
  cvLe (calculateCVRisk (handleInputChange prev (SetOnHypertensionMeds false)))
       (calculateCVRisk (handleInputChange prev (SetOnHypertensionMeds true))).
Proof.
  intros _ Hs.
  apply cvLe_of_horizons. intros t Ht.
  apply calculateRiskAtTime_mono_in_predictor; try reflexivity; [ | exact Ht ].
  assert (Hln : 0 <= ln (systolicBP prev)).
  { rewrite <- ln_1. apply ln_le; lra. }
  unfold indivSum.
  change (evalAge (handleInputChange prev (SetOnHypertensionMeds false)))
    with (evalAge prev).
  change (evalAge (handleInputChange prev (SetOnHypertensionMeds true)))
    with (evalAge prev).
  cbn [handleInputChange gender totalCholesterol hdlCholesterol systolicBP
       isSmoker hasDiabetes onHypertensionMeds].
  destruct (gender prev); lra.
Qed.

Lemma hypertension_meds_never_lower_cv_risk_witness :
  cvLe (calculateCVRisk (handleInputChange patientYoung (SetOnHypertensionMeds false)))
       (calculateCVRisk (handleInputChange patientYoung (SetOnHypertensionMeds true))).
Proof.
  apply hypertension_meds_never_lower_cv_risk.
  - unfold cvPre; simpl; lra.
  - simpl; lra.
Defined.

(** ** The combined result *)

(** X11: the long-horizon extrapolation cv30y.total is never below the
    ten-year cardiovascular risk it is derived from, never below 0.25 and
    never above 100. *)
Theorem cv30y_between_ten_year_and_100 (data : MedicalData) :
  cvPre data ->
  let r := getCombinedResults data in
  CvTimeline.tenYear (cvTimeline r) <= Cv30y.total (cv30y r) <= 100 /\
  0.25 <= Cv30y.total (cv30y r).
Proof.
  intros _ r. subst r.
  cbn [getCombinedResults cvTimeline cv30y CvTimeline.tenYear Cv30y.total
       calculateCVRisk CV.tenYear].
  pose proof (clamp_range (riskBeforeClamp data 10 * 100)) as H.
  fold (calculateRiskAtTime data 10) in H.
  unfold Rmin at 1 2 3.
  destruct (Rle_dec (calculateRiskAtTime data 10 * 2.5) 100); lra.
Qed.

Lemma cv30y_between_ten_year_and_100_witness :
  let r := getCombinedResults patientTreated in
  CvTimeline.tenYear (cvTimeline r) <= Cv30y.total (cv30y r) <= 100.
Proof.
  assert (Hpre : cvPre patientTreated) by (unfold cvPre; simpl; lra).
  exact (proj1 (cv30y_between_ten_year_and_100 patientTreated Hpre)).
Defined.

Lemma levelOf_monotone (cv1 rn1 cv2 rn2 : R) :
  cv1 <= cv2 -> rn1 <= rn2 ->
  (severity (levelOf cv1 rn1) <= severity (levelOf cv2 rn2))%nat.
Proof.
  intros Hcv Hrn. unfold levelOf.
  destruct (cv1 >? 20) eqn:A1; destruct (rn1 >? 15) eqn:A2;
  destruct (cv1 >? 10) eqn:A3; destruct (rn1 >? 10) eqn:A4;
  destruct (cv1 >? 5) eqn:A5; destruct (rn1 >? 5) eqn:A6;
  destruct (cv2 >? 20) eqn:B1; destruct (rn2 >? 15) eqn:B2;
  destruct (cv2 >? 10) eqn:B3; destruct (rn2 >? 10) eqn:B4;
  destruct (cv2 >? 5) eqn:B5; destruct (rn2 >? 5) eqn:B6;
  cbn [orb severity];
  try (repeat constructor; fail);
  exfalso; rewrite ?gtb_true, ?gtb_false in *; lra.
Qed.

(** X12: the combined level is monotone in the two figures it is derived
    from: a record whose ten-year cardiovascular risk and five-year renal
    risk are both at least those of another record never gets a less
    severe combinedLevel (low < moderate < high < very_high). *)
Theorem combined_level_monotone (d1 d2 : MedicalData) :
  CV.tenYear (calculateCVRisk d1) <= CV.tenYear (calculateCVRisk d2) ->
  Renal.fiveYear (calculateRenalRisk d1) <= Renal.fiveYear (calculateRenalRisk d2) ->
  (severity (combinedLevel (getCombinedResults d1))
   <= severity (combinedLevel (getCombinedResults d2)))%nat.
Proof.
  intros Hcv Hrn. cbn [getCombinedResults combinedLevel].
  apply levelOf_monotone; assumption.
Qed.

Lemma combined_level_monotone_witness :
  (severity (combinedLevel (getCombinedResults patientTreated))
   <= severity (combinedLevel (getCombinedResults
        (handleInputChange patientTreated (SetAcr 300)))))%nat.
Proof.
  apply combined_level_monotone.
  - right. reflexivity.
  - left.
    apply (renal_outputs_increasing_in_lp patientTreated
             (handleInputChange patientTreated (SetAcr 300))).
    assert (H : ln 30 < ln 300) by (apply ln_increasing; lra).
    unfold renalLp, isMale. simpl. lra.
Defined.

Lemma renal_fiveYear_mono_in_lp (d1 d2 : MedicalData) :
  renalLp d1 <= renalLp d2 ->
  Renal.fiveYear (calculateRenalRisk d1) <= Renal.fiveYear (calculateRenalRisk d2).
Proof.
  intros [Hlt | Heq].
  - left. apply (renal_outputs_increasing_in_lp d1 d2 Hlt).
  - right. cbn [calculateRenalRisk Renal.fiveYear]. rewrite Heq. reflexivity.
Qed.

(** X13: edits of the form that worsen a risk factor never make the
    combined level less severe: lowering eGFR, raising a positive ACR, and
    recording diabetes; and the level with statins is never more severe
    than the level without. *)
Theorem combined_level_after_edits (prev : MedicalData) :
  cvPre prev -> 0 < acr prev ->
  let sev := fun d => severity (combinedLevel (getCombinedResults d)) in
  (forall x : R, x <= eGFR prev ->
     (sev prev <= sev (handleInputChange prev (SetEGFR x)))%nat) /\
  (forall x : R, acr prev <= x ->
     (sev prev <= sev (handleInputChange prev (SetAcr x)))%nat) /\
  (hasDiabetes prev = false ->
     (sev prev <= sev (handleInputChange prev (SetHasDiabetes true)))%nat) /\
  (sev (handleInputChange prev (SetOnStatins true))
   <= sev (handleInputChange prev (SetOnStatins false)))%nat.
Proof.
  intros _ Hacr sev. subst sev. cbv beta.
  cbn [getCombinedResults combinedLevel].
  split; [ | split; [ | split ] ].
  - intros x Hx. apply levelOf_monotone.
    + right. reflexivity.
    + apply renal_fiveYear_mono_in_lp.
      unfold renalLp, isMale. cbn [handleInputChange age gender eGFR acr]. lra.
  - intros x Hx. apply levelOf_monotone.
    + right. reflexivity.
    + apply renal_fiveYear_mono_in_lp.
      pose proof (ln_le _ _ Hacr Hx).
      unfold renalLp, isMale. cbn [handleInputChange age gender eGFR acr]. lra.
  - intro Hd. apply levelOf_monotone.
    + cbn [calculateCVRisk CV.tenYear].
      apply calculateRiskAtTime_mono_in_predictor; try reflexivity; [ | lra ].
      left. apply indivSum_with_diabetes. exact Hd.
    + right. reflexivity.
  - apply levelOf_monotone.
    + cbn [calculateCVRisk CV.tenYear].
      rewrite !calculateRiskAtTime_floor, !riskBeforeClamp_eq.
      change (riskFactor (handleInputChange prev (SetOnStatins true)))
        with (riskFactor prev).
      change (riskFactor (handleInputChange prev (SetOnStatins false)))
        with (riskFactor prev).
      cbn [handleInputChange onStatins gender].
      pose proof (riskFactor_pos prev) as Hpos.
      assert (He : 0 < 10 / 10 * riskFactor prev) by lra.
      pose proof (Rpower_survival _ _ (s10_range (gender prev)) He).
      unfold Rmax. repeat destruct (Rle_dec _ 0.1); lra.
    + right. reflexivity.
Qed.

Lemma combined_level_after_edits_witness :
  (severity (combinedLevel (getCombinedResults patientTreated))
   <= severity (combinedLevel (getCombinedResults
        (handleInputChange patientTreated (SetEGFR 25)))))%nat.
Proof.
  assert (Hpre : cvPre patientTreated) by (unfold cvPre; simpl; lra).
  assert (Hacr : 0 < acr patientTreated) by (simpl; lra).
  destruct (combined_level_after_edits patientTreated Hpre Hacr) as [H _].
  apply (H 25). simpl. lra.
Defined.

(** ** The optimal counterfactual, continued *)

(** X14: calculateOptimalRisk gives a record that is not on statins and
    whose systolic pressure, cholesterol, HDL, smoking and medication
    fields already equal the optimal constants exactly its own
    calculateCVRisk result; in particular the optimal record is its own
    optimum. *)
Theorem optimal_risk_of_optimal_record (data : MedicalData) :
  atOptimal data -> onStatins data = false ->
  calculateOptimalRisk data = calculateCVRisk data /\
  calculateOptimalRisk (optimalData data) = calculateOptimalRisk data /\
  calculateCVRisk (optimalData data) = calculateOptimalRisk data.
Proof.
  intros [Hs [Ht [Hh [Hk Hm]]]] Hst.
  split; [ | split; reflexivity ].
  unfold calculateOptimalRisk.
  apply calculateCVRisk_inputs; cbn [optimalData gender systolicBP
    totalCholesterol hdlCholesterol hasDiabetes isSmoker onHypertensionMeds
    onStatins]; try reflexivity; symmetry; assumption.
Qed.

Lemma optimal_risk_of_optimal_record_witness :
  calculateOptimalRisk (optimalData patientTreated)
  = calculateCVRisk (optimalData patientTreated).
Proof.
  apply (optimal_risk_of_optimal_record (optimalData patientTreated)).
  - unfold atOptimal. repeat split.
  - reflexivity.
Defined.

(** X15: for a valid record that is not on statins, whose systolic
    pressure, total cholesterol and HDL are whole numbers with systolic
    pressure at least 115, total cholesterol at least 160 and HDL at most
    55, and whose age keeps the effects in their usual direction (any age
    for a non-smoking man, at most 78 for a man who smokes, at most 74 for
    a woman), the optimal risk is at most the original risk at the five-,
    ten- and fifteen-year horizons; the diastolic pressure is free. *)
Theorem optimal_not_above_original_at_every_horizon (data : MedicalData) :
  cvPre data -> onStatins data = false ->
  noBetterThanOptimal data -> wholeNumberInputs data ->
  usualDirection data ->
  cvLe (calculateOptimalRisk data) (calculateCVRisk data).
Proof.
  intros Hpre Hst Hworse _ Hdir.
  destruct (predictor_gap data Hpre Hworse Hdir) as [Hle _].
  unfold calculateOptimalRisk. apply cvLe_of_horizons. intros t Ht.
  apply calculateRiskAtTime_mono_in_predictor;
    [ reflexivity | rewrite Hst; reflexivity | exact Hle | exact Ht ].
Qed.

Lemma optimal_not_above_original_at_every_horizon_witness :
  cvLe (calculateOptimalRisk (handleInputChange patientTreated (SetDiastolicBP 70)))
       (calculateCVRisk (handleInputChange patientTreated (SetDiastolicBP 70))).
Proof.
  apply optimal_not_above_original_at_every_horizon.
  - unfold cvPre; simpl; lra.
  - reflexivity.
  - unfold noBetterThanOptimal; simpl; lra.
  - unfold wholeNumberInputs; simpl.
    split; [ exists 145%Z | split; [ exists 250%Z | exists 38%Z ] ];
      reflexivity.
  - left. reflexivity.
Defined.

(** * Properties of the report and dashboard (App.tsx) *)

Lemma ltb_true (x y : R) : (x <? y) = true <-> x < y.
Proof. unfold ltb. destruct (Rlt_dec x y); split; intro; lra || congruence. Qed.

Lemma ltb_false (x y : R) : (x <? y) = false <-> y <= x.
Proof. unfold ltb. destruct (Rlt_dec x y); split; intro; lra || congruence. Qed.

Ltac decide_comparisons :=
  repeat match goal with
  | |- context [ ?x <? ?y ] =>
      let E := fresh "E" in destruct (x <? y) eqn:E;
      [ apply ltb_true in E | apply ltb_false in E ]
  | |- context [ ?x >? ?y ] =>
      let E := fresh "E" in destruct (x >? y) eqn:E;
      [ apply gtb_true in E | apply gtb_false in E ]
  end.

(** X16: the GFR stage of the report follows the KDIGO intervals with each
    boundary belonging to the better stage (an eGFR of exactly 15 is G4,
    of exactly 60 is G2, of exactly 90 is G1), every stage always carries
    the same description, and the item "TFG reduzida" is listed exactly
    when the stage is neither G1 nor G2. *)
Theorem kdigo_gfr_stage_intervals (formData : MedicalData) :
  let k := kdigoStage formData in
  let g := eGFR formData in
  (g < 15 -> stage k = "G5"%string /\ desc k = "Falência Renal"%string) /\
  (15 <= g < 30 ->
   stage k = "G4"%string /\ desc k = "Severamente Reduzida"%string) /\
  (30 <= g < 45 ->
   stage k = "G3b"%string /\ desc k = "Moderada a Severa"%string) /\
  (45 <= g < 60 ->
   stage k = "G3a"%string /\ desc k = "Leve a Moderada"%string) /\
  (60 <= g < 90 ->
   stage k = "G2"%string /\ desc k = "Levemente Reduzida"%string) /\
  (90 <= g -> stage k = "G1"%string /\ desc k = "Normal ou Elevada"%string) /\
  (showsReducedGfr formData = true <->
   stage k <> "G1"%string /\ stage k <> "G2"%string).
Proof.
  intros k g. subst k g.
  unfold kdigoStage, showsReducedGfr. cbn [stage desc].
  decide_comparisons; cbn [fst snd];
    repeat split; intros; try reflexivity; try lra; try discriminate;
    try (exfalso; lra);
    repeat match goal with H : _ /\ _ |- _ => destruct H end;
    try congruence.
Qed.

Lemma kdigo_gfr_stage_intervals_witness :
  stage (kdigoStage patientTreated) = "G2"%string /\
  stage (kdigoStage (handleInputChange patientTreated (SetEGFR 15))) = "G4"%string.
Proof.
  destruct (kdigo_gfr_stage_intervals patientTreated)
    as [_ [_ [_ [_ [H2 _]]]]].
  destruct (kdigo_gfr_stage_intervals (handleInputChange patientTreated (SetEGFR 15)))
    as [_ [H4 _]].
  split; [ apply H2 | apply H4 ]; simpl; lra.
Defined.

(** X17: for an ACR that is a number the albuminuria stage is A3 above 300,
    A2 above 30 and up to 300, A1 up to 30; for an emptied ACR box (NaN)
    it is A1.  The item "Albuminúria" is listed exactly when the stage is
    not A1.  The second label printed beside the stage on the report line
    uses [<] where the stage uses [>]: the two labels agree exactly when
    the ACR is a number other than 30 and 300; they read A1 beside A2 at
    exactly 30, A2 beside A3 at exactly 300, and A1 beside A3 for the
    emptied box.  On a record whose ACR is the number [acr] these are the
    [acrStage] of kdigoStage and the label of the report. *)
Theorem albuminuria_labels (a : AcrInput) :
  let s := acrStageOf a in
  let l := reportAcrLabelOf a in
  (s = "A3"%string <-> exists x : R, a = AcrNumber x /\ 300 < x) /\
  (s = "A2"%string <-> exists x : R, a = AcrNumber x /\ 30 < x <= 300) /\
  (s = "A1"%string <-> a = AcrNaN \/ exists x : R, a = AcrNumber x /\ x <= 30) /\
  (showsAlbuminuriaOf a = true <-> s <> "A1"%string) /\
  (s = l <-> exists x : R, a = AcrNumber x /\ x <> 30 /\ x <> 300) /\
  (a = AcrNumber 30 -> s = "A1"%string /\ l = "A2"%string) /\
  (a = AcrNumber 300 -> s = "A2"%string /\ l = "A3"%string) /\
  (a = AcrNaN ->
   s = "A1"%string /\ l = "A3"%string /\ showsAlbuminuriaOf a = false) /\
  (forall formData : MedicalData,
     a = AcrNumber (acr formData) ->
     acrStage (kdigoStage formData) = s /\
     reportAcrLabel formData = l /\
     showsAlbuminuria formData = showsAlbuminuriaOf a).
Proof.
  intros s l. subst s l.
  assert (Hlink : forall formData : MedicalData,
    a = AcrNumber (acr formData) ->
    acrStage (kdigoStage formData) = acrStageOf a /\
    reportAcrLabel formData = reportAcrLabelOf a /\
    showsAlbuminuria formData = showsAlbuminuriaOf a).
  { intros formData ->. repeat split; reflexivity. }
  repeat match goal with
  | |- _ /\ (forall formData : MedicalData, _) => split; [ | exact Hlink ]
  | |- _ /\ _ => split
  end; clear Hlink.
  all: destruct a as [x | ];
    unfold acrStageOf, reportAcrLabelOf, showsAlbuminuriaOf, acrGt, acrLt;
    try (destruct (x >? 300) eqn:E1;
           [ apply gtb_true in E1 | apply gtb_false in E1 ];
         destruct (x >? 30) eqn:E2;
           try apply gtb_true in E2; try apply gtb_false in E2;
         destruct (x <? 30) eqn:E3;
           try apply ltb_true in E3; try apply ltb_false in E3;
         destruct (x <? 300) eqn:E4;
           try apply ltb_true in E4; try apply ltb_false in E4;
         try (exfalso; lra));
    try split; intros;
    repeat match goal with
    | H : _ /\ _ |- _ => destruct H
    | H : exists _, _ |- _ => destruct H
    | H : _ \/ _ |- _ => destruct H
    | H : AcrNumber _ = AcrNumber _ |- _ => injection H as H; subst
    | H : AcrNumber _ = AcrNaN |- _ => discriminate H
    | H : AcrNaN = AcrNumber _ |- _ => discriminate H
    end;
    try reflexivity; try discriminate; try lra; try congruence;
    try (exfalso; lra);
    try (repeat split; reflexivity);
    try (left; reflexivity);
    try (exists x; repeat split; try reflexivity; lra);
    try (right; exists x; repeat split; try reflexivity; lra);
    try (exists x; split; [ reflexivity | split; intro; lra ]).
Qed.

Lemma albuminuria_labels_witness :
  acrStage (kdigoStage patientTreated) = "A1"%string /\
  reportAcrLabel patientTreated = "A2"%string /\
  acrStageOf AcrNaN = "A1"%string /\
  reportAcrLabelOf AcrNaN = "A3"%string.
Proof.
  destruct (albuminuria_labels (AcrNumber 30))
    as [_ [_ [_ [_ [_ [H30 [_ [_ Hrec]]]]]]]].
  destruct (albuminuria_labels AcrNaN)
    as [_ [_ [_ [_ [_ [_ [_ [Hnan _]]]]]]]].
  destruct (H30 eq_refl) as [Hs Hl].
  destruct (Hrec patientTreated eq_refl) as [Rs [Rl _]].
  destruct (Hnan eq_refl) as [Ns [Nl _]].
  split; [ rewrite Rs; exact Hs | ].
  split; [ rewrite Rl; exact Hl | ].
  split; assumption.
Defined.



(** ** Rounded figures *)

Lemma nearestTenths_spec (x : R) :
  IZR (nearestTenths x) <= x * 10 + / 2 < IZR (nearestTenths x) + 1.
Proof.
  unfold nearestTenths.
  pose proof (base_Int_part (x * 10 + / 2)) as [H1 H2]. lra.
Qed.

Lemma nearestTenths_ge (x : R) (n : Z) :
  IZR n <= x * 10 + / 2 -> (n <= nearestTenths x)%Z.
Proof.
  intro H. pose proof (nearestTenths_spec x) as [_ H2].
  assert (Hlt : IZR n < IZR (nearestTenths x + 1)) by (rewrite plus_IZR; lra).
  apply lt_IZR in Hlt. lia.
Qed.

Lemma nearestTenths_le (x : R) (n : Z) :
  x * 10 + / 2 < IZR n + 1 -> (nearestTenths x <= n)%Z.
Proof.
  intro H. pose proof (nearestTenths_spec x) as [H1 _].
  assert (Hlt : IZR (nearestTenths x) < IZR (n + 1)) by (rewrite plus_IZR; lra).
  apply lt_IZR in Hlt. lia.
Qed.

Lemma toFixed1_nonneg (x : R) :
  0 <= x -> toFixed1 x = IZR (nearestTenths x) / 10.
Proof.
  intro H. unfold toFixed1.
  destruct (x <? 0) eqn:E; [ apply ltb_true in E; lra | reflexivity ].
Qed.


Lemma toFixed1_monotone (x y : R) :
  0 <= x -> x <= y -> toFixed1 x <= toFixed1 y.
Proof.
  intros Hx Hxy. rewrite !toFixed1_nonneg by lra.
  pose proof (nearestTenths_spec x) as [H1 _].
  assert (Hz : (nearestTenths x <= nearestTenths y)%Z)
    by (apply nearestTenths_ge; lra).
  apply IZR_le in Hz. lra.
Qed.


(** A rounded figure is positive exactly from 0.05, and then at least
    0.1. *)
Lemma toFixed1_positive (x : R) :
  (toFixed1 x > 0 <-> 0.05 <= x) /\ (toFixed1 x > 0 -> 0.1 <= toFixed1 x).
Proof.
  unfold toFixed1.
  destruct (x <? 0) eqn:E; [ apply ltb_true in E | apply ltb_false in E ].
  - assert (H0 : (0 <= nearestTenths (- x))%Z) by (apply nearestTenths_ge; lra).
    apply IZR_le in H0.
    split; [ split | ]; intro; lra.
  - split; [ split | ]; intro H.
    + destruct (Rle_lt_dec 0.05 x) as [Hle | Hlt]; [ exact Hle | exfalso ].
      assert (H0 : (nearestTenths x <= 0)%Z) by (apply nearestTenths_le; lra).
      apply IZR_le in H0. lra.
    + assert (H1 : (1 <= nearestTenths x)%Z) by (apply nearestTenths_ge; lra).
      apply IZR_le in H1. lra.
    + assert (Hn : 0 < IZR (nearestTenths x)) by lra.
      apply lt_IZR in Hn.
      assert (H1 : (1 <= nearestTenths x)%Z) by lia.
      apply IZR_le in H1. lra.
Qed.



(** X20: compareData is the pair of bars "Atual" and "Meta", in this
    order; for a valid record that is not on statins, whose systolic
    pressure, total cholesterol and HDL are whole numbers with systolic
    pressure at least 115, total cholesterol at least 160 and HDL at most
    55, and whose age keeps the effects in their usual direction, the bar
    "Meta" is never taller than the bar "Atual"; the diastolic pressure
    is free. *)
Theorem compare_bars_meta_not_above_atual (data : MedicalData) :
  cvPre data -> onStatins data = false ->
  noBetterThanOptimal data -> wholeNumberInputs data ->
  usualDirection data ->
  exists atual meta : Compare.t,
    compareData (getCombinedResults data) (calculateOptimalRisk data)
      = [atual; meta] /\
    Compare.name atual = "Atual"%string /\
    Compare.name meta = "Meta"%string /\
    Compare.Risco meta <= Compare.Risco atual.
Proof.
  intros Hpre Hst Hworse _ Hdir.
  unfold compareData. eexists. eexists.
  split; [ reflexivity | ].
  split; [ reflexivity | split; [ reflexivity | ] ].
  cbn [Compare.Risco getCombinedResults cvTimeline CvTimeline.tenYear].
  unfold calculateOptimalRisk. cbn [calculateCVRisk CV.tenYear].
  destruct (predictor_gap data Hpre Hworse Hdir) as [Hle _].
  pose proof (clamp_range (riskBeforeClamp (optimalData data) 10 * 100)) as Hr.
  fold (calculateRiskAtTime (optimalData data) 10) in Hr.
  apply toFixed1_monotone; [ lra | ].
  apply calculateRiskAtTime_mono_in_predictor;
    [ reflexivity | rewrite Hst; reflexivity | exact Hle | lra ].
Qed.

Lemma compare_bars_meta_not_above_atual_witness :
  exists atual meta : Compare.t,
    compareData
      (getCombinedResults (handleInputChange patientTreated (SetDiastolicBP 70)))
      (calculateOptimalRisk (handleInputChange patientTreated (SetDiastolicBP 70)))
      = [atual; meta] /\
    Compare.name atual = "Atual"%string /\
    Compare.name meta = "Meta"%string /\
    Compare.Risco meta <= Compare.Risco atual.
Proof.
  apply compare_bars_meta_not_above_atual.
  - unfold cvPre; simpl; lra.
  - reflexivity.
  - unfold noBetterThanOptimal; simpl; lra.
  - unfold wholeNumberInputs; simpl.
    split; [ exists 145%Z | split; [ exists 250%Z | exists 38%Z ] ];
      reflexivity.
  - left. reflexivity.
Defined.

Lemma gtb_toFixed1 (x : R) : (toFixed1 x >? 0) = true <-> 0.05 <= x.
Proof.
  rewrite gtb_true. apply (proj1 (toFixed1_positive x)).
Qed.

(** X21: the chart of aggravating factors draws the bar "PA" exactly when
    (systolicBP - 120) * 1.5 is at least 0.05, the bar "Lipídios" exactly
    when (totalCholesterol - 150) * 0.8 is at least 0.05, and, for an ACR
    above -1, the bar "UACR" exactly when ln(acr + 1) * 5 is at least
    0.05; smaller excesses round to 0.0 and are filtered out.  Every bar
    drawn has a value of at least 0.1. *)
Theorem impact_bars_shown (formData : MedicalData) :
  -1 < acr formData ->
  let bars := impactData formData in
  (hasBar "PA" bars <-> 0.05 <= (systolicBP formData - 120) * 1.5) /\
  (hasBar "Lipídios" bars <-> 0.05 <= (totalCholesterol formData - 150) * 0.8) /\
  (hasBar "UACR" bars <-> 0.05 <= ln (acr formData + 1) * 5) /\
  (forall b : Impact.t, In b bars -> 0.1 <= Impact.val b).
Proof.
  intros _ bars. subst bars. unfold impactData, hasBar.
  assert (Hbar : forall (i : Impact.t) (l : list Impact.t),
    In i l ->
    (forall b, In b l -> Impact.name b = Impact.name i -> b = i) ->
    ((exists b, In b (filter (fun d => Impact.val d >? 0) l)
                /\ Impact.name b = Impact.name i)
     <-> (Impact.val i >? 0) = true)).
  { intros i l Hi Huniq. split.
    - intros [b [Hin Hn]]. apply filter_In in Hin. destruct Hin as [Hin Hf].
      rewrite <- (Huniq b Hin Hn). exact Hf.
    - intro Hf. exists i. split; [ | reflexivity ].
      apply filter_In. split; assumption. }
  assert (Huniq : forall i b : Impact.t,
    In i [ {| Impact.name := "PA";
              Impact.val := toFixed1 ((systolicBP formData - 120) * 1.5);
              Impact.fill := "#ef4444" |};
           {| Impact.name := "Lipídios";
              Impact.val := toFixed1 ((totalCholesterol formData - 150) * 0.8);
              Impact.fill := "#f59e0b" |};
           {| Impact.name := "UACR";
              Impact.val := toFixed1 (ln (acr formData + 1) * 5);
              Impact.fill := "#10b981" |} ] ->
    In b [ {| Impact.name := "PA";
              Impact.val := toFixed1 ((systolicBP formData - 120) * 1.5);
              Impact.fill := "#ef4444" |};
           {| Impact.name := "Lipídios";
              Impact.val := toFixed1 ((totalCholesterol formData - 150) * 0.8);
              Impact.fill := "#f59e0b" |};
           {| Impact.name := "UACR";
              Impact.val := toFixed1 (ln (acr formData + 1) * 5);
              Impact.fill := "#10b981" |} ] ->
    Impact.name b = Impact.name i -> b = i).
  { intros i b Hi Hb Hn. cbn [In] in Hi, Hb.
    destruct Hi as [<- | [<- | [<- | []]]];
      destruct Hb as [<- | [<- | [<- | []]]];
      cbn [Impact.name] in Hn; try reflexivity; discriminate Hn. }
  split; [ | split; [ | split ] ].
  - rewrite <- gtb_toFixed1.
    apply (Hbar {| Impact.name := "PA";
                   Impact.val := toFixed1 ((systolicBP formData - 120) * 1.5);
                   Impact.fill := "#ef4444" |}).
    + cbn [In]. auto.
    + intros b Hb. apply Huniq; cbn [In]; auto.
  - rewrite <- gtb_toFixed1.
    apply (Hbar {| Impact.name := "Lipídios";
                   Impact.val := toFixed1 ((totalCholesterol formData - 150) * 0.8);
                   Impact.fill := "#f59e0b" |}).
    + cbn [In]. auto.
    + intros b Hb. apply Huniq; cbn [In]; auto.
  - rewrite <- gtb_toFixed1.
    apply (Hbar {| Impact.name := "UACR";
                   Impact.val := toFixed1 (ln (acr formData + 1) * 5);
                   Impact.fill := "#10b981" |}).
    + cbn [In]. auto.
    + intros b Hb. apply Huniq; cbn [In]; auto.
  - intros b Hin. apply filter_In in Hin. destruct Hin as [Hin Hf].
    apply gtb_true in Hf.
    cbn [In] in Hin. destruct Hin as [<- | [<- | [<- | []]]];
      cbn [Impact.val] in *; apply toFixed1_positive; exact Hf.
Qed.

Lemma impact_bars_shown_witness :
  hasBar "PA" (impactData patientTreated) /\
  ~ hasBar "PA" (impactData patientYoung).
Proof.
  assert (H1 : -1 < acr patientTreated) by (simpl; lra).
  assert (H2 : -1 < acr patientYoung) by (simpl; lra).
  destruct (impact_bars_shown patientTreated H1) as [P1 _].
  destruct (impact_bars_shown patientYoung H2) as [P2 _].
  split.
  - apply P1. simpl. lra.
  - intro H. apply P2 in H. simpl in H. lra.
Defined.

(** ** Navigation *)

Lemma navInvariant_click (s : Nav.State) (b : Nav.Button) :
  navInvariant s -> navInvariant (Nav.click s b).
Proof.
  unfold navInvariant, Nav.click, Nav.clickable, Nav.viewIs, Nav.handler.
  destruct s as [v st]. cbn [Nav.view Nav.step].
  intros [Hstep Hres].
  destruct b; destruct v; cbn [andb negb Nav.view Nav.step];
    repeat match goal with
    | |- context [ (st =? 1)%Z ] => destruct (Z.eqb_spec st 1)
    | |- context [ (st <? 3)%Z ] => destruct (Z.ltb_spec st 3)
    end;
    cbn [negb Nav.view Nav.step];
    (split; [ lia | intro Hv; try discriminate Hv; try lia; auto ]).
Qed.

Lemma navInvariant_fold (clicks : list Nav.Button) : forall s : Nav.State,
  navInvariant s -> navInvariant (fold_left Nav.click clicks s).
Proof.
  induction clicks as [ | b clicks IH ]; intros s Hs; cbn [fold_left].
  - exact Hs.
  - apply IH. apply navInvariant_click. exact Hs.
Qed.

(** X22: whatever buttons are clicked, in whatever order, from the initial
    state, the form step stays within 1..3 and the results view is only
    ever shown with the step at 3: every path to the results goes through
    all three steps of the form, and "Editar Dados" reopens the form at
    its last step. *)
Theorem navigation_keeps_step_in_range (clicks : list Nav.Button) :
  let s := Nav.run clicks in
  (1 <= Nav.step s <= 3)%Z /\
  (Nav.view s = Nav.results -> Nav.step s = 3%Z) /\
  (Nav.view s = Nav.results ->
   Nav.click s Nav.EditarDados = {| Nav.view := Nav.calc; Nav.step := 3 |}).
Proof.
  intro s.
  assert (Hinv : navInvariant s).
  { apply navInvariant_fold. split; cbn; [ lia | discriminate ]. }
  destruct Hinv as [Hstep Hres].
  split; [ exact Hstep | split; [ exact Hres | ] ].
  intro Hv. specialize (Hres Hv).
  unfold Nav.click, Nav.clickable, Nav.viewIs. rewrite Hv.
  cbn [Nav.handler]. rewrite Hres. reflexivity.
Qed.

Lemma navigation_keeps_step_in_range_witness :
  Nav.run [Nav.Iniciar; Nav.Proximo; Nav.Proximo; Nav.Proximo;
           Nav.GerarAnalises; Nav.Voltar; Nav.EditarDados]
  = {| Nav.view := Nav.calc; Nav.step := 3 |}.
Proof.
  pose proof (navigation_keeps_step_in_range
                [Nav.Iniciar; Nav.Proximo; Nav.Proximo; Nav.Proximo;
                 Nav.GerarAnalises]) as [_ [_ H]].
  cbv zeta in H. rewrite <- H; reflexivity.
Defined.

(** ** The sanitised narrative *)

Lemma asterisksToBullets_no_asterisk (text : list N) :
  ~ In asterisk (asterisksToBullets text).
Proof.
  unfold asterisksToBullets. intro H. apply in_map_iff in H.
  destruct H as [c [Hc _]].
  destruct (c =? asterisk)%N eqn:E.
  - discriminate Hc.
  - apply N.eqb_neq in E. congruence.
Qed.

Lemma removeDoubleAsterisks_id (text : list N) :
  ~ In asterisk text -> removeDoubleAsterisks text = text.
Proof.
  induction text as [ | c rest IH ]; intro H; [ reflexivity | ].
  assert (Hc : (c =? asterisk)%N = false).
  { apply N.eqb_neq. intro E. apply H. left. exact E. }
  assert (Hrest : ~ In asterisk rest) by (intro; apply H; right; assumption).
  cbn [removeDoubleAsterisks]. destruct rest as [ | c' rest' ].
  - reflexivity.
  - rewrite Hc. cbn [andb]. rewrite (IH Hrest). reflexivity.
Qed.

Lemma asterisksToBullets_id (text : list N) :
  ~ In asterisk text -> asterisksToBullets text = text.
Proof.
  induction text as [ | c rest IH ]; intro H; [ reflexivity | ].
  unfold asterisksToBullets in *. cbn [map].
  assert (Hc : (c =? asterisk)%N = false).
  { apply N.eqb_neq. intro E. apply H. left. exact E. }
  rewrite Hc, IH; [ reflexivity | intro; apply H; right; assumption ].
Qed.

Lemma removeDoubleAsterisks_length (n : nat) : forall text : list N,
  (length text <= n)%nat ->
  (length (removeDoubleAsterisks text) <= length text)%nat.
Proof.
  induction n as [ | n IH ]; intros text Hn.
  - destruct text; [ cbn; lia | cbn in Hn; lia ].
  - destruct text as [ | c rest ]; [ cbn; lia | ].
    cbn [removeDoubleAsterisks]. destruct rest as [ | c' rest' ].
    + cbn. lia.
    + cbn [length] in Hn.
      destruct ((c =? asterisk)%N && (c' =? asterisk)%N).
      * assert (H := IH rest' ltac:(lia)). cbn [length]. lia.
      * assert (H := IH (c' :: rest') ltac:(cbn [length]; lia)).
        cbn [length] in *. lia.
Qed.

(** X23: the narrative shown after sanitising never contains an asterisk,
    is never longer than the text received, and a text without asterisks
    is shown unchanged; sanitising twice changes nothing more. *)
Theorem sanitized_insight_has_no_asterisk (text : list N) :
  ~ In asterisk (sanitizeInsight text) /\
  (length (sanitizeInsight text) <= length text)%nat /\
  (~ In asterisk text -> sanitizeInsight text = text) /\
  sanitizeInsight (sanitizeInsight text) = sanitizeInsight text.
Proof.
  assert (Hno : ~ In asterisk (sanitizeInsight text))
    by apply asterisksToBullets_no_asterisk.
  assert (Hid : forall t, ~ In asterisk t -> sanitizeInsight t = t).
  { intros t Ht. unfold sanitizeInsight.
    rewrite (removeDoubleAsterisks_id t Ht). apply asterisksToBullets_id. exact Ht. }
  split; [ exact Hno | ].
  split.
  - unfold sanitizeInsight, asterisksToBullets. rewrite length_map.
    apply (removeDoubleAsterisks_length (length text)). lia.
  - split; [ apply Hid | apply Hid; exact Hno ].
Qed.

Lemma sanitized_insight_has_no_asterisk_witness :
  sanitizeInsight [42; 42; 79; 75; 42; 42; 32; 42; 32; 97]%N
  = [79; 75; 32; 8226; 32; 97]%N /\
  sanitizeInsight [79; 75]%N = [79; 75]%N.
Proof.
  split; [ reflexivity | ].
  destruct (sanitized_insight_has_no_asterisk [79; 75]%N) as [_ [_ [H _]]].
  apply H.
  cbn [In]. unfold asterisk. intros [E | [E | []]]; discriminate E.
Defined.

(** ** Provider and API keys *)

Lemma string_length_append (a b : string) :
  String.length (a ++ b) = (String.length a + String.length b)%nat.
Proof.
  induction a as [ | c a IH ]; cbn; [ reflexivity | rewrite IH; reflexivity ].
Qed.

Lemma string_append_suffix_inj (s : string) : forall a b : string,
  (a ++ s = b ++ s)%string -> a = b.
Proof.
  induction a as [ | c a IH ]; intros b H; destruct b as [ | c' b ].
  - reflexivity.
  - exfalso. apply (f_equal String.length) in H.
    cbn in H. rewrite string_length_append in H. lia.
  - exfalso. apply (f_equal String.length) in H.
    cbn in H. rewrite string_length_append in H. lia.
  - cbn in H. injection H as Hc Ht. rewrite Hc, (IH b Ht). reflexivity.
Qed.

Lemma key_name_eqb (p q : string) :
  ((p ++ "_api_key") =? (q ++ "_api_key"))%string = (p =? q)%string.
Proof.
  destruct (String.eqb_spec p q) as [-> | Hne].
  - apply String.eqb_refl.
  - apply String.eqb_neq. intro H. apply Hne.
    exact (string_append_suffix_inj _ _ _ H).
Qed.

Lemma key_name_not_provider (p : string) :
  ("ai_provider" =? (p ++ "_api_key"))%string = false.
Proof.
  apply String.eqb_neq. intro H.
  assert (Hlen : String.length p = 3%nat).
  { apply (f_equal String.length) in H.
    rewrite string_length_append in H. cbn in H. lia. }
  destruct p as [ | a [ | b [ | c [ | d p ] ] ] ]; cbn in Hlen; try discriminate Hlen.
  cbn in H. discriminate H.
Qed.

Lemma initialState_setItem_key (st : Keys.Storage) (key prov p : string) :
  p = "openai"%string \/ p = "groq"%string \/ p = "gemini"%string ->
  Keys.apiKeys (Keys.initialState (Keys.setItem st (prov ++ "_api_key") key)) p
  = if (p =? prov)%string then Some key
    else Keys.apiKeys (Keys.initialState st) p.
Proof.
  intros Hp.
  assert (Hor : forall k : string, Keys.orDefault (Some k) "" = k).
  { intro k. cbn. destruct (String.eqb_spec k ""); congruence. }
  unfold Keys.initialState, Keys.getItem, Keys.setItem. cbn [Keys.apiKeys].
  change "openai_api_key"%string with ("openai" ++ "_api_key")%string.
  change "groq_api_key"%string with ("groq" ++ "_api_key")%string.
  change "gemini_api_key"%string with ("gemini" ++ "_api_key")%string.
  rewrite !key_name_eqb.
  destruct Hp as [-> | [-> | ->]];
    repeat match goal with
    | |- context [ (?a =? ?b)%string ] =>
        tryif is_var b then fail else
          (let v := eval vm_compute in (a =? b)%string in
           change (a =? b)%string with v)
    end;
    cbv iota;
    repeat match goal with
    | |- context [ (?a =? prov)%string ] =>
        destruct (String.eqb_spec a prov)
    end;
    subst; try reflexivity; try (rewrite Hor; reflexivity); try discriminate.
Qed.

Lemma initialState_setItem_provider (st : Keys.Storage) (prov p : string) :
  p = "openai"%string \/ p = "groq"%string \/ p = "gemini"%string ->
  Keys.apiKeys (Keys.initialState (Keys.setItem st "ai_provider" prov)) p
  = Keys.apiKeys (Keys.initialState st) p.
Proof.
  intros [-> | [-> | ->]]; reflexivity.
Qed.

Lemma inSync_act (w : Keys.State * Keys.Storage) (a : Keys.Action) :
  Keys.offered a -> Keys.inSync w -> Keys.inSync (Keys.act w a).
Proof.
  intros Ha [Hprov Hkeys]. destruct a as [key prov | prov]; cbn [Keys.act].
  - split.
    + cbn [Keys.saveApiKey fst snd Keys.provider]. rewrite Hprov.
      unfold Keys.initialState, Keys.getItem, Keys.setItem.
      cbn [Keys.provider]. rewrite key_name_not_provider. reflexivity.
    + intros p Hp. cbn [Keys.saveApiKey fst snd Keys.apiKeys].
      rewrite (initialState_setItem_key _ key prov p Hp), (Hkeys p Hp).
      reflexivity.
  - split.
    + cbn [Keys.changeProvider fst snd Keys.provider].
      unfold Keys.initialState, Keys.getItem, Keys.setItem.
      cbn [Keys.provider]. rewrite String.eqb_refl. unfold Keys.orDefault.
      cbn in Ha. destruct (String.eqb_spec prov ""); [ contradiction | reflexivity ].
    + intros p Hp. cbn [Keys.changeProvider fst snd Keys.apiKeys].
      rewrite (initialState_setItem_provider _ prov p Hp). apply Hkeys. exact Hp.
Qed.

(** X24: after any sequence of saveApiKey and changeProvider calls (the
    providers chosen being non-empty strings) the provider and the three
    API keys held in memory are exactly what a reload of the page would
    read back from localStorage; a key saved for openai, groq or gemini is
    the key reloaded for that provider, and saving a key, for whatever
    provider name, never overwrites the stored provider choice. *)
Theorem api_keys_survive_reload (st : Keys.Storage) (actions : list Keys.Action) :
  Forall Keys.offered actions ->
  let w := fold_left Keys.act actions (Keys.initialState st, st) in
  Keys.inSync w /\
  (forall key p : string,
     p = "openai"%string \/ p = "groq"%string \/ p = "gemini"%string ->
     Keys.apiKeys (Keys.initialState (snd (Keys.saveApiKey key p w))) p
     = Some key) /\
  (forall key prov : string,
     Keys.getItem (snd (Keys.saveApiKey key prov w)) "ai_provider"
     = Keys.getItem (snd w) "ai_provider").
Proof.
  intros Hall w.
  assert (Hsync : Keys.inSync w).
  { subst w.
    assert (H0 : Keys.inSync (Keys.initialState st, st))
      by (split; [ reflexivity | intros; reflexivity ]).
    revert H0. generalize (Keys.initialState st, st).
    induction Hall as [ | a actions Ha Hall IH ]; intros w0 H0; cbn [fold_left].
    - exact H0.
    - apply IH. apply inSync_act; assumption. }
  split; [ exact Hsync | split ].
  - intros key p Hp. cbn [Keys.saveApiKey snd].
    rewrite (initialState_setItem_key _ key p p Hp), String.eqb_refl.
    reflexivity.
  - intros key prov. cbn [Keys.saveApiKey snd].
    unfold Keys.getItem, Keys.setItem.
    rewrite key_name_not_provider. reflexivity.
Qed.

Lemma api_keys_survive_reload_witness :
  let w := fold_left Keys.act
             [Keys.ChangeProvider "groq"; Keys.SaveApiKey "gsk_1" "groq"]
             (Keys.initialState (fun _ => None), fun _ => None) in
  Keys.provider (Keys.initialState (snd w)) = "groq"%string /\
  Keys.apiKeys (Keys.initialState (snd w)) "groq" = Some "gsk_1"%string.
Proof.
  intro w.
  assert (Hall : Forall Keys.offered
            [Keys.ChangeProvider "groq"; Keys.SaveApiKey "gsk_1" "groq"]).
  { repeat constructor. cbn. discriminate. }
  destruct (api_keys_survive_reload (fun _ => None) _ Hall) as [[Hp Hk] _].
  split.
  - transitivity (Keys.provider (fst w)); [ symmetry; exact Hp | reflexivity ].
  - transitivity (Keys.apiKeys (fst w) "groq");
      [ symmetry; apply Hk; auto | reflexivity ].
Defined.
